(** * A verified model of the platform-hierarchy API client

    Shallow embedding of [platform_hierarchy_v1.py]: the token cache, the
    authenticator [get_access_token], the dispatcher [make_api_call], the
    node operations built on it and the envelope helpers. *)

From stdpp Require Import base option list strings gmap pretty.
From Stdlib Require Import ZArith Ascii String.

Set Warnings "-register-all".

Local Open Scope string_scope.
Local Open Scope Z_scope.

(** ** Python values *)

(** The values [json.loads] produces: [None], booleans, integers, floats,
    strings, lists and dictionaries with string keys.  The client never
    computes on a float, it only passes one along, so a float is carried as
    its binary64 bit pattern.  A dictionary keeps its items in insertion
    order. *)
Inductive pyval : Type :=
| PyNone
| PyBool (b : bool)
| PyInt (n : Z)
| PyFloat (bits : Z)
| PyStr (s : string)
| PyList (items : list pyval)
| PyDict (items : list (string * pyval)).

Definition is_empty_string (s : string) : bool :=
  match s with EmptyString => true | String _ _ => false end.

(** The truth value Python gives an object in an [if] test. *)
Definition truthy (v : pyval) : bool :=
  match v with
  | PyNone => false
  | PyBool b => b
  | PyInt n => negb (n =? 0)
  | PyFloat bits => negb ((bits =? 0) || (bits =? 2 ^ 63))
  | PyStr s => negb (is_empty_string s)
  | PyList [] => false
  | PyList (_ :: _) => true
  | PyDict [] => false
  | PyDict (_ :: _) => true
  end.

Fixpoint dict_lookup (k : string) (d : list (string * pyval)) : option pyval :=
  match d with
  | [] => None
  | (k', v) :: rest => if String.eqb k k' then Some v else dict_lookup k rest
  end.

(** ** Exceptions, requests and responses *)

(** A subscript is a string key or an integer index. *)
Inductive key : Type :=
| KStr (s : string)
| KInt (i : Z).

Record Response : Type := mkResponse {
  status_code : Z;
  (** the decoded body; [None] when the body is not JSON *)
  body : option pyval
}.

Inductive exn : Type :=
| HTTPError (response : Response)
| ConnectionError
| JSONDecodeError
| AttributeError
| KeyError (k : key)
| IndexError
| TypeError.

(** What is handed to [requests] as [data]: a form dictionary, the text
    [json.dumps] makes of a value, or the empty default dictionary. *)
Inductive payload : Type :=
| FormData (fields : list (string * string))
| JsonDumps (v : pyval)
| NoPayload.

Record Request : Type := mkRequest {
  req_method : string;
  req_url : string;
  req_params : list (string * string);
  req_data : payload;
  req_headers : list (string * pyval)
}.

(** ** The world the client runs in *)

Record Settings : Type := mkSettings {
  AUTH_URL : string;
  AUTH_CLIENT_ID : string;
  AUTH_CLIENT_SECRET : string;
  AUTH_AUDIENCE_ID : string
}.

Record CacheEntry : Type := mkEntry {
  entry_value : pyval;
  entry_timeout : pyval
}.

(** [cache] is the process-wide key/value store, [pending] the responses
    the network will give to the next requests, [sent] the requests made so
    far (oldest first) and [stdout] the lines printed so far. *)
Record World : Type := mkWorld {
  settings : Settings;
  cache : gmap string CacheEntry;
  pending : list Response;
  sent : list Request;
  stdout : list string
}.

Definition set_cache (c : gmap string CacheEntry) (w : World) : World :=
  mkWorld (settings w) c (pending w) (sent w) (stdout w).

Definition set_network (p : list Response) (s : list Request) (w : World) : World :=
  mkWorld (settings w) (cache w) p s (stdout w).

Definition set_stdout (o : list string) (w : World) : World :=
  mkWorld (settings w) (cache w) (pending w) (sent w) o.

(** ** Computations that may raise *)

Inductive outcome (A : Type) : Type :=
| Ret (a : A)
| Raise (e : exn).
Arguments Ret {A} a.
Arguments Raise {A} e.

(** A statement sequence: it reads and writes the world and either returns
    or raises; what was written before a raise stays written. *)
Definition M (A : Type) : Type := World -> outcome A * World.

Definition ret {A} (a : A) : M A := fun w => (Ret a, w).

Definition raise {A} (e : exn) : M A := fun w => (Raise e, w).

Definition bind {A B} (m : M A) (k : A -> M B) : M B :=
  fun w =>
    match m w with
    | (Ret a, w') => k a w'
    | (Raise e, w') => (Raise e, w')
    end.

(** [try: m except KeyError as e: h e] *)
Definition try_except_KeyError {A} (m : M A) (h : key -> M A) : M A :=
  fun w =>
    match m w with
    | (Raise (KeyError k), w') => h k w'
    | r => r
    end.

Declare Scope py_scope.
Delimit Scope py_scope with py.
Notation "x <- m ;; k" := (bind m (fun x => k))
  (at level 100, m at next level, right associativity) : py_scope.
Notation "m ;;; k" := (bind m (fun _ => k))
  (at level 100, right associativity) : py_scope.
Local Open Scope py_scope.

(** ** The token cache *)

(** Modelled from the spec: the cache is Django's, not part of this
    repository.  [get] gives the stored value or [None]; [set] stores the
    value with the timeout it is given and computes nothing on it; the store
    evicts an entry on its own when its timeout has elapsed, which is the
    step [cache_evict] of the environment. *)
Definition cache_get (k : string) : M pyval :=
  fun w =>
    (Ret (match cache w !! k with
          | Some e => entry_value e
          | None => PyNone
          end), w).

Definition cache_set (k : string) (v timeout : pyval) : M unit :=
  fun w => (Ret tt, set_cache (<[k := mkEntry v timeout]> (cache w)) w).

Definition cache_evict (k : string) (w : World) : World :=
  set_cache (delete k (cache w)) w.

(** ** The HTTP layer *)

(** Modelled from the [requests] library: a request takes the next pending
    response, or fails to connect when there is none. *)
Definition http_send (rq : Request) : M Response :=
  fun w =>
    match pending w with
    | [] => (Raise ConnectionError, set_network [] (sent w ++ [rq]) w)
    | r :: rest => (Ret r, set_network rest (sent w ++ [rq]) w)
    end.

(** [Response.ok]: true unless the status is a client or server error. *)
Definition is_error_status (s : Z) : bool := (400 <=? s) && (s <? 600).

Definition response_ok (r : Response) : bool := negb (is_error_status (status_code r)).

Definition raise_for_status (r : Response) : M unit :=
  if is_error_status (status_code r) then raise (HTTPError r) else ret tt.

(** [r.json()] *)
Definition json (r : Response) : M pyval :=
  match body r with
  | Some v => ret v
  | None => raise JSONDecodeError
  end.

(** [v.get(k)]: only a dictionary has the method. *)
Definition py_get (v : pyval) (k : string) : M pyval :=
  match v with
  | PyDict d => ret (default PyNone (dict_lookup k d))
  | _ => raise AttributeError
  end.

Definition print (line : string) : M unit :=
  fun w => (Ret tt, set_stdout (stdout w ++ [line]) w).

Definition get_settings : M Settings := fun w => (Ret (settings w), w).

(** ** Joining URLs *)

(** Modelled from the Python standard library: [urllib.parse.urljoin] of
    CPython 3.11, on [str] arguments, a character of the string being a code
    point below 256.  [urlsplit] raises [ValueError] on an authority part
    with a malformed bracketed host, or with a non-ASCII character that
    normalises to a delimiter; that is not modelled, and [plain_authority]
    marks the URLs on which [urlsplit] makes no such check. *)
Module Url.

Definition ascii_in (c : ascii) (s : string) : bool :=
  existsb (Ascii.eqb c) (list_ascii_of_string s).

Definition contains (c : ascii) (s : string) : bool := ascii_in c s.

Definition is_alpha (c : ascii) : bool :=
  let n := nat_of_ascii c in
  ((65 <=? n) && (n <=? 90) || (97 <=? n) && (n <=? 122))%nat.

Definition scheme_chars : string :=
  "abcdefghijklmnopqrstuvwxyzABCDEFGHIJKLMNOPQRSTUVWXYZ0123456789+-.".

Definition lower_char (c : ascii) : ascii :=
  let n := nat_of_ascii c in
  if ((65 <=? n) && (n <=? 90))%nat then ascii_of_nat (n + 32) else c.

Fixpoint lower (s : string) : string :=
  match s with
  | EmptyString => EmptyString
  | String c r => String (lower_char c) (lower r)
  end.

Fixpoint all_chars (p : ascii -> bool) (s : string) : bool :=
  match s with
  | EmptyString => true
  | String c r => p c && all_chars p r
  end.

(** [s.split(c, 1)] when [c] occurs in [s]: the text before the first [c]
    and the text after it. *)
Fixpoint cut (c : ascii) (s : string) : option (string * string) :=
  match s with
  | EmptyString => None
  | String a r =>
      if Ascii.eqb a c then Some (EmptyString, r)
      else match cut c r with
           | Some (h, t) => Some (String a h, t)
           | None => None
           end
  end.

(** [s.split(c)] *)
Fixpoint split (c : ascii) (s : string) : list string :=
  match s with
  | EmptyString => [EmptyString]
  | String a r =>
      if Ascii.eqb a c then EmptyString :: split c r
      else match split c r with
           | h :: t => String a h :: t
           | [] => [String a EmptyString]
           end
  end.

(** [sep.join(l)] *)
Fixpoint join (sep : string) (l : list string) : string :=
  match l with
  | [] => EmptyString
  | [x] => x
  | x :: rest => x +:+ sep +:+ join sep rest
  end.

(** The longest prefix without a character of [stops], and what follows. *)
Fixpoint span_until (stops : string) (s : string) : string * string :=
  match s with
  | EmptyString => (EmptyString, EmptyString)
  | String a r =>
      if ascii_in a stops then (EmptyString, s)
      else let '(h, t) := span_until stops r in (String a h, t)
  end.

Definition mem (s : string) (l : list string) : bool := existsb (String.eqb s) l.

Definition uses_relative : list string :=
  [""; "ftp"; "http"; "gopher"; "nntp"; "imap"; "wais"; "file"; "https";
   "shttp"; "mms"; "prospero"; "rtsp"; "rtspu"; "sftp"; "svn";
   "svn+ssh"; "ws"; "wss"].

Definition uses_netloc : list string :=
  [""; "ftp"; "http"; "gopher"; "nntp"; "telnet"; "imap"; "wais"; "file";
   "mms"; "https"; "shttp"; "snews"; "prospero"; "rtsp"; "rtspu";
   "rsync"; "svn"; "svn+ssh"; "sftp"; "nfs"; "git"; "git+ssh"; "ws"; "wss"].

Definition uses_params : list string :=
  [""; "ftp"; "hdl"; "prospero"; "http"; "imap"; "https"; "shttp"; "rtsp";
   "rtspu"; "sip"; "sips"; "mms"; "sftp"; "tel"].

(** The C0 control characters and the space, which [urlsplit] strips from
    the front of the URL and from both ends of the default scheme. *)
Definition is_c0_or_space (c : ascii) : bool := (nat_of_ascii c <=? 32)%nat.

(** Tab, carriage return and line feed, which [urlsplit] removes wherever
    they are. *)
Definition is_unsafe (c : ascii) : bool :=
  let n := nat_of_ascii c in ((n =? 9) || (n =? 13) || (n =? 10))%nat.

Fixpoint lstrip (s : string) : string :=
  match s with
  | EmptyString => EmptyString
  | String c r => if is_c0_or_space c then lstrip r else s
  end.

Fixpoint rstrip (s : string) : string :=
  match s with
  | EmptyString => EmptyString
  | String c r =>
      match rstrip r with
      | EmptyString => if is_c0_or_space c then EmptyString
                       else String c EmptyString
      | kept => String c kept
      end
  end.

Definition strip (s : string) : string := rstrip (lstrip s).

Fixpoint remove_unsafe (s : string) : string :=
  match s with
  | EmptyString => EmptyString
  | String c r => if is_unsafe c then remove_unsafe r
                  else String c (remove_unsafe r)
  end.

Record SplitResult : Type := mkSplit {
  sp_scheme : string;
  sp_netloc : string;
  sp_path : string;
  sp_query : string;
  sp_fragment : string
}.

Record ParseResult : Type := mkParse {
  scheme : string;
  netloc : string;
  path : string;
  params : string;
  query : string;
  fragment : string
}.

(** The scheme part of [urlsplit]: a leading run of scheme characters that
    starts with a letter and ends at the first colon. *)
Definition split_scheme (url default : string) : string * string :=
  match url with
  | String c0 _ =>
      if is_alpha c0 then
        match cut ":" url with
        | Some (pre, rest) =>
            if all_chars (fun c => ascii_in c scheme_chars) pre
            then (lower pre, rest)
            else (default, url)
        | None => (default, url)
        end
      else (default, url)
  | EmptyString => (default, url)
  end.

Definition split_netloc (url : string) : string * string :=
  match url with
  | String "/" (String "/" rest) => span_until "/?#" rest
  | _ => (EmptyString, url)
  end.

Definition urlsplit (url default : string) : SplitResult :=
  let url := remove_unsafe (lstrip url) in
  let default := remove_unsafe (strip default) in
  let '(sch, url1) := split_scheme url default in
  let '(loc, url2) := split_netloc url1 in
  let '(url3, frag) :=
    match cut "#" url2 with Some p => p | None => (url2, EmptyString) end in
  let '(url4, qry) :=
    match cut "?" url3 with Some p => p | None => (url3, EmptyString) end in
  mkSplit sch loc url4 qry frag.

(** The authority part [urlsplit] finds in a URL, and whether it is free of
    what [urlsplit] checks: brackets and non-ASCII characters. *)
Definition authority (url : string) : string :=
  sp_netloc (urlsplit url EmptyString).

Definition plain_authority (url : string) : bool :=
  all_chars (fun c => (nat_of_ascii c <? 128)%nat && negb (ascii_in c "[]"))
    (authority url).

(** The last path segment, split at its first semicolon. *)
Fixpoint rcut_slash (s : string) : string * string :=
  match s with
  | EmptyString => (EmptyString, EmptyString)
  | String a r =>
      let '(h, t) := rcut_slash r in
      if contains "/" r then (String a h, t)
      else if Ascii.eqb a "/" then (String a EmptyString, r)
      else (EmptyString, s)
  end.

Definition splitparams (url : string) : string * string :=
  let '(dir, last) := rcut_slash url in
  match cut ";" last with
  | Some (h, t) => (dir +:+ h, t)
  | None => (url, EmptyString)
  end.

Definition urlparse (url default : string) : ParseResult :=
  let r := urlsplit url default in
  let '(p, prm) :=
    if mem (sp_scheme r) uses_params && contains ";" (sp_path r)
    then splitparams (sp_path r)
    else (sp_path r, EmptyString) in
  mkParse (sp_scheme r) (sp_netloc r) p prm (sp_query r) (sp_fragment r).

Definition starts_with_slash (s : string) : bool :=
  match s with String "/" _ => true | _ => false end.

Definition starts_with_2slash (s : string) : bool :=
  match s with String "/" (String "/" _) => true | _ => false end.

Definition urlunsplit (sch loc url qry frag : string) : string :=
  let url1 :=
    if negb (is_empty_string loc)
       || (negb (is_empty_string sch) && mem sch uses_netloc
           && negb (starts_with_2slash url))
    then
      let u := if negb (is_empty_string url) && negb (starts_with_slash url)
               then "/" +:+ url else url in
      "//" +:+ loc +:+ u
    else url in
  let url2 := if is_empty_string sch then url1 else sch +:+ ":" +:+ url1 in
  let url3 := if is_empty_string qry then url2 else url2 +:+ "?" +:+ qry in
  if is_empty_string frag then url3 else url3 +:+ "#" +:+ frag.

Definition urlunparse (p : ParseResult) : string :=
  let url := if is_empty_string (params p) then path p
             else path p +:+ ";" +:+ params p in
  urlunsplit (scheme p) (netloc p) url (query p) (fragment p).

(** [segments[1:-1] = filter(None, segments[1:-1])] *)
Definition drop_empty_inside (segments : list string) : list string :=
  match segments with
  | first :: rest =>
      match List.rev rest with
      | last :: rmid =>
          first :: List.filter (fun s => negb (is_empty_string s)) (List.rev rmid)
                ++ [last]
      | [] => segments
      end
  | [] => segments
  end.

(** The loop over the segments, with [resolved] kept in reverse. *)
Fixpoint resolve (segments resolved : list string) : list string :=
  match segments with
  | [] => List.rev resolved
  | seg :: rest =>
      if String.eqb seg ".." then resolve rest (List.tl resolved)
      else if String.eqb seg "." then resolve rest resolved
      else resolve rest (seg :: resolved)
  end.

Definition urljoin (base url : string) : string :=
  if is_empty_string base then url
  else if is_empty_string url then base
  else
    let b := urlparse base "" in
    let u := urlparse url (scheme b) in
    if negb (String.eqb (scheme u) (scheme b)) || negb (mem (scheme u) uses_relative)
    then url
    else if mem (scheme u) uses_netloc && negb (is_empty_string (netloc u))
    then urlunparse u
    else
      let loc := if mem (scheme u) uses_netloc then netloc b else netloc u in
      if is_empty_string (path u) && is_empty_string (params u) then
        urlunparse
          (mkParse (scheme u) loc (path b) (params b)
                   (if is_empty_string (query u) then query b else query u)
                   (fragment u))
      else
        let base_parts := split "/" (path b) in
        let base_parts :=
          match List.last base_parts EmptyString with
          | EmptyString => base_parts
          | _ => List.removelast base_parts
          end in
        let segments :=
          if starts_with_slash (path u) then split "/" (path u)
          else drop_empty_inside (base_parts ++ split "/" (path u)) in
        let resolved := resolve segments [] in
        let last := List.last segments EmptyString in
        let resolved :=
          if String.eqb last "." || String.eqb last ".."
          then (resolved ++ [EmptyString])%list else resolved in
        let joined := join "/" resolved in
        urlunparse
          (mkParse (scheme u) loc
                   (if is_empty_string joined then "/" else joined)
                   (params u) (query u) (fragment u)).

End Url.

(** ** Subscripts, iteration and formatting *)

Definition py_chars (s : string) : list pyval :=
  List.map (fun c => PyStr (String c EmptyString)) (list_ascii_of_string s).

(** [l[i]] on a sequence: a negative index counts from the end. *)
Definition seq_index {A} (l : list A) (i : Z) : M A :=
  let n := Z.of_nat (List.length l) in
  let j := if i <? 0 then i + n else i in
  if (0 <=? j) && (j <? n) then
    match List.nth_error l (Z.to_nat j) with
    | Some x => ret x
    | None => raise IndexError
    end
  else raise IndexError.

(** [v[k]].  A decoded JSON object has string keys only, so an integer is
    never one of its keys. *)
Definition py_getitem (v : pyval) (k : key) : M pyval :=
  match v, k with
  | PyDict d, KStr s =>
      match dict_lookup s d with
      | Some x => ret x
      | None => raise (KeyError k)
      end
  | PyDict _, KInt _ => raise (KeyError k)
  | PyList l, KInt i => seq_index l i
  | PyStr s, KInt i => seq_index (py_chars s) i
  | _, _ => raise TypeError
  end.

(** The items a [for] loop over [v] visits. *)
Definition py_iter (v : pyval) : M (list pyval) :=
  match v with
  | PyList l => ret l
  | PyStr s => ret (py_chars s)
  | PyDict d => ret (List.map (fun kv => PyStr (fst kv)) d)
  | _ => raise TypeError
  end.

(** The text of a [KeyError] in an f-string is the [repr] of its key.  The
    keys the helpers subscript with are the literals [value], [Id] and [0],
    which [repr] writes between single quotes without escapes. *)
Definition key_repr (k : key) : string :=
  match k with
  | KStr s => "'" +:+ s +:+ "'"
  | KInt i => pretty i
  end.

(** ** The envelope helpers *)

Definition _get_root_value (json_payload : pyval) : M pyval :=
  try_except_KeyError
    (value <- py_getitem json_payload (KStr "value") ;;
     py_getitem value (KInt 0))
    (fun e =>
       print ("Error occurred when getting root payload value " +:+ key_repr e) ;;;
       ret PyNone).

Definition _get_root_id (json_payload : pyval) : M pyval :=
  try_except_KeyError
    (value <- py_getitem json_payload (KStr "value") ;;
     first <- py_getitem value (KInt 0) ;;
     py_getitem first (KStr "Id"))
    (fun e =>
       print ("Error occurred when getting root id " +:+ key_repr e) ;;;
       ret PyNone).

Definition _get_all_node_values (json_payload : pyval) : M pyval :=
  value <- py_getitem json_payload (KStr "value") ;;
  vals <- py_iter value ;;
  ret (PyList vals).

(** ** The client *)

Definition LOCAL_HIERARCHY_URL : string :=
  "https://platform-hierarchy-service.localhost.net/".
Definition ORG_ID : string := "3fa85f64-5717-4562-b3fc-2c963f66afa6".
Definition HIERARCHY_TYPE : string := "location".

Section Client.

(** Python's [repr] of a float, a list or a dictionary: the client formats
    such a value only when the token endpoint sends one where a string is
    expected, and the text it gets is left open. *)
Variable py_repr : pyval -> string.

(** [str(v)], which an f-string applies to each interpolated value. *)
Definition py_str (v : pyval) : string :=
  match v with
  | PyNone => "None"
  | PyBool true => "True"
  | PyBool false => "False"
  | PyInt n => pretty n
  | PyStr s => s
  | PyFloat _ | PyList _ | PyDict _ => py_repr v
  end.

Definition get_access_token : M pyval :=
  token <- cache_get "access_token" ;;
  if truthy token then ret token
  else
    cfg <- get_settings ;;
    let url := Url.urljoin (AUTH_URL cfg) "/oauth/token" in
    let data := FormData [("client_id", AUTH_CLIENT_ID cfg);
                          ("client_secret", AUTH_CLIENT_SECRET cfg);
                          ("audience", AUTH_AUDIENCE_ID cfg);
                          ("grant_type", "client_credentials")] in
    response <- http_send (mkRequest "POST" url [] data []) ;;
    raise_for_status response ;;;
    if response_ok response then
      response_json <- json response ;;
      token_type <- py_get response_json "token_type" ;;
      access_token <- py_get response_json "access_token" ;;
      expiry <- py_get response_json "expires_in" ;;
      cache_set "access_token"
        (PyStr (py_str token_type +:+ " " +:+ py_str access_token)) expiry ;;;
      ret (PyStr (py_str token_type +:+ " " +:+ py_str access_token))
    else ret PyNone.

Definition make_api_call (method uri : string) (payload : payload)
    (uri_params : list (string * string)) : M Response :=
  token <- get_access_token ;;
  let url := Url.urljoin LOCAL_HIERARCHY_URL uri in
  let headers := [("Authorization", token);
                  ("Content-Type", PyStr "application/json");
                  ("accept", PyStr "application/json")] in
  response <- http_send (mkRequest method url uri_params payload headers) ;;
  raise_for_status response ;;;
  print ("Positive Response - " +:+ py_str (PyBool (response_ok response))) ;;;
  print ("Hierarchy response status code - "
           +:+ py_str (PyInt (status_code response))) ;;;
  ret response.

(** *** Inserts *)

Definition insert_root_companyunit_node : M unit :=
  let uri := "/v1/organisation/" +:+ ORG_ID +:+ "/hierarchy/" +:+ HIERARCHY_TYPE in
  let payload := JsonDumps (PyDict [("shortCode", PyStr "root");
                                    ("name", PyStr "Top Company");
                                    ("archived", PyBool false);
                                    ("nodeType", PyStr "company")]) in
  make_api_call "PUT" uri payload [] ;;;
  ret tt.

Definition insert_company_unit_division_node : M unit :=
  let shortCode := "edinburgh" in
  let uri := "/v1/organisation/" +:+ ORG_ID +:+ "/hierarchy/" +:+ HIERARCHY_TYPE
               +:+ "/nodes/" +:+ shortCode in
  let payload := JsonDumps (PyDict [("name", PyStr "Edinburgh");
                                    ("parentShortCode", PyStr "root");
                                    ("parentId", PyStr "40c46fec-206e-426b-8c6c-199925c44441");
                                    ("archived", PyBool false);
                                    ("nodeType", PyStr "division")]) in
  make_api_call "PUT" uri payload [] ;;;
  ret tt.

Definition insert_company_unit_site_node : M unit :=
  let shortCode := "eedinburgh-office" in
  let uri := "/v1/organisation/" +:+ ORG_ID +:+ "/hierarchy/" +:+ HIERARCHY_TYPE
               +:+ "/nodes/" +:+ shortCode in
  let payload := JsonDumps (PyDict [("name", PyStr "Edinburgh Office");
                                    ("parentShortCode", PyStr "edinburgh");
                                    ("parentId", PyStr "caa8aae2-ab54-4f0d-a580-28e1ce49cc60");
                                    ("archived", PyBool false);
                                    ("nodeType", PyStr "site")]) in
  make_api_call "PUT" uri payload [] ;;;
  ret tt.

(** *** Queries *)

Definition get_root_companyunit_node : M Response :=
  let uri := "/v1/organisation/" +:+ ORG_ID +:+ "/hierarchy/" +:+ HIERARCHY_TYPE
               +:+ "/nodes" in
  let params := [("$filter", "ShortCode eq 'root'")] in
  make_api_call "GET" uri NoPayload params.

Definition get_company_unit_node (nodeId : string) : M Response :=
  let uri := "/v1/organisation/" +:+ ORG_ID +:+ "/hierarchy/" +:+ HIERARCHY_TYPE
               +:+ "/nodes/" +:+ nodeId in
  make_api_call "GET" uri NoPayload [].

Definition get_divisions_company_unit_nodes : M Response :=
  let uri := "/v1/organisation/" +:+ ORG_ID +:+ "/hierarchy/" +:+ HIERARCHY_TYPE
               +:+ "/nodes" in
  let params := [("$filter", "NodeType eq 'division'")] in
  make_api_call "GET" uri NoPayload params.

Definition get_sites_company_unit_nodes : M Response :=
  let uri := "/v1/organisation/" +:+ ORG_ID +:+ "/hierarchy/" +:+ HIERARCHY_TYPE
               +:+ "/nodes" in
  let params := [("$filter", "NodeType eq 'site'")] in
  make_api_call "GET" uri NoPayload params.

Definition get_company_unit_nodes : M Response :=
  let uri := "/v1/organisation/" +:+ ORG_ID +:+ "/hierarchy/" +:+ HIERARCHY_TYPE
               +:+ "/nodes" in
  let params := [("$filter", "ShortCode ne 'root'")] in
  make_api_call "GET" uri NoPayload params.

(** *** Archives *)

Definition archive_company_unit_node (nodeId : string) : M unit :=
  let uri := "/v1/organisation/" +:+ ORG_ID +:+ "/hierarchy/" +:+ HIERARCHY_TYPE
               +:+ "/nodes/" +:+ nodeId in
  let payload := JsonDumps (PyList [PyDict [("value", PyBool true);
                                            ("path", PyStr "/Archived");
                                            ("op", PyStr "replace")]]) in
  make_api_call "PATCH" uri payload [] ;;;
  ret tt.

Definition unarchive_company_unit_node (nodeId : string) : M unit :=
  let uri := "/v1/organisation/" +:+ ORG_ID +:+ "/hierarchy/" +:+ HIERARCHY_TYPE
               +:+ "/nodes/" +:+ nodeId in
  let payload := JsonDumps (PyList [PyDict [("value", PyBool false);
                                            ("path", PyStr "/Archived");
                                            ("op", PyStr "replace")]]) in
  make_api_call "PATCH" uri payload [] ;;;
  ret tt.

(** *** The operations as one family *)

Inductive node_op : Type :=
| InsertRoot
| InsertDivision
| InsertSite
| GetRoot
| GetNode (nodeId : string)
| GetDivisions
| GetSites
| GetNonRoot
| Archive (nodeId : string)
| Unarchive (nodeId : string).

(** What a call of the operation gives its caller: the response for a
    query, nothing for an insert or an archive. *)
Definition run_op (op : node_op) : M (option Response) :=
  let returning (m : M Response) := r <- m ;; ret (Some r) in
  let silent (m : M unit) := m ;;; ret None in
  match op with
  | InsertRoot => silent insert_root_companyunit_node
  | InsertDivision => silent insert_company_unit_division_node
  | InsertSite => silent insert_company_unit_site_node
  | GetRoot => returning get_root_companyunit_node
  | GetNode nodeId => returning (get_company_unit_node nodeId)
  | GetDivisions => returning get_divisions_company_unit_nodes
  | GetSites => returning get_sites_company_unit_nodes
  | GetNonRoot => returning get_company_unit_nodes
  | Archive nodeId => silent (archive_company_unit_node nodeId)
  | Unarchive nodeId => silent (unarchive_company_unit_node nodeId)
  end.

(** *** The script *)

Definition main : M unit :=
  root_resp <- get_root_companyunit_node ;;
  division_nodes <- get_divisions_company_unit_nodes ;;
  site_nodes <- get_sites_company_unit_nodes ;;
  root_json <- json root_resp ;;
  root_value <- _get_root_value root_json ;;
  division_json <- json division_nodes ;;
  division_values <- _get_all_node_values division_json ;;
  site_json <- json site_nodes ;;
  site_values <- _get_all_node_values site_json ;;
  ret tt.

End Client.

(** ** Notions the properties are stated with *)

(** What [cache.get("access_token")] gives in a world. *)
Definition cached_token (w : World) : pyval :=
  match cache w !! "access_token" with
  | Some e => entry_value e
  | None => PyNone
  end.

(** The POST the authenticator makes in a world. *)
Definition token_request (w : World) : Request :=
  mkRequest "POST" (Url.urljoin (AUTH_URL (settings w)) "/oauth/token") []
    (FormData [("client_id", AUTH_CLIENT_ID (settings w));
               ("client_secret", AUTH_CLIENT_SECRET (settings w));
               ("audience", AUTH_AUDIENCE_ID (settings w));
               ("grant_type", "client_credentials")]) [].

(** [d.get(k)] *)
Definition dict_get (k : string) (d : list (string * pyval)) : pyval :=
  default PyNone (dict_lookup k d).

(** The request the dispatcher makes with token [tok]. *)
Definition hierarchy_request (tok : pyval) (method uri : string)
    (payload : payload) (uri_params : list (string * string)) : Request :=
  mkRequest method (Url.urljoin LOCAL_HIERARCHY_URL uri) uri_params payload
    [("Authorization", tok);
     ("Content-Type", PyStr "application/json");
     ("accept", PyStr "application/json")].

(** The world once the dispatcher's request [rq] has taken its response. *)
Definition answered (rq : Request) (rest : list Response) (w : World) : World :=
  set_network rest (sent w ++ [rq]) w.

(** Whether the operation hands the response back to its caller. *)
Definition returns_response (op : node_op) : bool :=
  match op with
  | GetRoot | GetNode _ | GetDivisions | GetSites | GetNonRoot => true
  | _ => false
  end.

Definition diagnostics (r : Response) : list string :=
  ["Positive Response - True";
   "Hierarchy response status code - " +:+ pretty (status_code r)].

(** An absolute path with no authority, query, fragment or parameters, no
    dot segment, and no tab, carriage return or line feed. *)
Definition clean_path (uri : string) : bool :=
  Url.starts_with_slash uri
  && negb (Url.starts_with_2slash uri)
  && Url.all_chars (fun c => negb (Url.ascii_in c "?#;") && negb (Url.is_unsafe c)) uri
  && forallb (fun seg => negb (String.eqb seg "..") && negb (String.eqb seg "."))
       (Url.split "/" uri).

(** The world after one more printed line. *)
Definition logged (line : string) (w : World) : World :=
  set_stdout (stdout w ++ [line]) w.

(** The spec's rule for a short code, in its words: the name in lower case
    with its words joined by hyphens. *)
Fixpoint hyphenate (s : string) : string :=
  match s with
  | EmptyString => EmptyString
  | String c r => String (if Ascii.eqb c " " then "-"%char else c) (hyphenate r)
  end.

Definition spec_short_code (name : string) : string := hyphenate (Url.lower name).

(** The node collection of the deployment. *)
Definition nodes_url : string :=
  "https://platform-hierarchy-service.localhost.net/v1/organisation/3fa85f64-5717-4562-b3fc-2c963f66afa6/hierarchy/location/nodes".

(** *** Sample worlds *)

(** A stand-in for [repr], for runs in which no float, list or dictionary
    is formatted. *)
Definition sample_repr : pyval -> string := fun _ => "<object>".

Definition sample_settings : Settings :=
  mkSettings "https://auth.example.com/" "client-id" "client-secret" "audience-id".

Definition sample_world (c : gmap string CacheEntry) (p : list Response) : World :=
  mkWorld sample_settings c p [] [].

Definition token_response : Response :=
  mkResponse 200 (Some (PyDict [("token_type", PyStr "Bearer");
                                ("access_token", PyStr "abc");
                                ("expires_in", PyInt 3600)])).

Definition warm_cache : gmap string CacheEntry :=
  {["access_token" := mkEntry (PyStr "Bearer abc") (PyInt 3600)]}.

Definition envelope (nodes : list pyval) : Response :=
  mkResponse 200 (Some (PyDict [("value", PyList nodes)])).

Definition top_company : pyval :=
  PyDict [("Id", PyStr "40c46fec-206e-426b-8c6c-199925c44441");
          ("ShortCode", PyStr "root");
          ("Name", PyStr "Top Company");
          ("NodeType", PyStr "company");
          ("Archived", PyBool false)].

(** *** Notions for the further properties *)

(** A path segment that stands for itself in a URL: no separator, query,
    fragment or parameter character, no tab, carriage return or line feed,
    and not a dot segment. *)
Definition clean_segment (seg : string) : bool :=
  Url.all_chars (fun c => negb (Url.ascii_in c "/?#;") && negb (Url.is_unsafe c)) seg
  && negb (String.eqb seg "..") && negb (String.eqb seg ".").

(** The path of the node collection, as the f-strings build it. *)
Definition nodes_uri : string :=
  "/v1/organisation/" +:+ ORG_ID +:+ "/hierarchy/" +:+ HIERARCHY_TYPE +:+ "/nodes".

(** The GET of the node collection with one filter. *)
Definition collection_query (tok : pyval) (filter : string) : Request :=
  hierarchy_request tok "GET" nodes_uri NoPayload [("$filter", filter)].

(** [w'] differs from [w] at most in what was printed. *)
Definition same_but_stdout (w w' : World) : Prop :=
  settings w' = settings w /\ cache w' = cache w
  /\ pending w' = pending w /\ sent w' = sent w.

(** A computation that neither sends a request nor writes the cache. *)
Definition offline {A} (m : M A) : Prop :=
  forall w, same_but_stdout w (snd (m w)).

Definition is_object (v : pyval) : bool :=
  match v with PyDict _ => true | _ => false end.

(** The second half of [main]: the three responses are decoded and handed
    to the helpers, in this order, after all three queries. *)
Definition parse_responses (root_resp division_nodes site_nodes : Response) : M unit :=
  root_json <- json root_resp ;;
  root_value <- _get_root_value root_json ;;
  division_json <- json division_nodes ;;
  division_values <- _get_all_node_values division_json ;;
  site_json <- json site_nodes ;;
  site_values <- _get_all_node_values site_json ;;
  ret tt.

(** The world after the collection query with [filter] has returned [r]. *)
Definition after_query (tok : pyval) (filter : string) (r : Response)
    (rest : list Response) (w : World) : World :=
  set_stdout (stdout w ++ diagnostics r)
    (answered (collection_query tok filter) rest w).

(** The world after the three queries of [main] have returned. *)
Definition after_queries (tok : pyval) (r1 r2 r3 : Response)
    (rest : list Response) (w : World) : World :=
  after_query tok "NodeType eq 'site'" r3 rest
    (after_query tok "NodeType eq 'division'" r2 (r3 :: rest)
       (after_query tok "ShortCode eq 'root'" r1 (r2 :: r3 :: rest) w)).

(** * Properties *)

Ltac run_step :=
  unfold bind, ret, raise, cache_get, cache_set, get_settings, print,
    http_send, raise_for_status, json, response_ok, py_get; simpl.

Section AuthenticatorFacts.

Variable py_repr : pyval -> string.

Lemma token_text_nonempty (a b : string) :
  is_empty_string (a +:+ " " +:+ b) = false.
Proof. destruct a; reflexivity. Qed.

Lemma token_text_truthy (a b : string) : truthy (PyStr (a +:+ " " +:+ b)) = true.
Proof. simpl. now rewrite token_text_nonempty. Qed.

Lemma get_access_token_hit (w : World) :
  truthy (cached_token w) = true ->
  get_access_token py_repr w = (Ret (cached_token w), w).
Proof.
  intros Hhit. unfold get_access_token, cached_token in *. run_step.
  now rewrite Hhit.
Qed.

(** On a miss the POST goes out and its response decides the rest. *)
Lemma get_access_token_miss (w : World) (r : Response) (rest : list Response) :
  truthy (cached_token w) = false ->
  pending w = r :: rest ->
  let w1 := set_network rest (sent w ++ [token_request w]) w in
  get_access_token py_repr w =
    if is_error_status (status_code r) then (Raise (HTTPError r), w1)
    else match body r with
         | None => (Raise JSONDecodeError, w1)
         | Some (PyDict d) =>
             let text := py_str py_repr (dict_get "token_type" d) +:+ " "
                           +:+ py_str py_repr (dict_get "access_token" d) in
             (Ret (PyStr text),
              set_cache (<["access_token" :=
                             mkEntry (PyStr text) (dict_get "expires_in" d)]>
                           (cache w1)) w1)
         | Some _ => (Raise AttributeError, w1)
         end.
Proof.
  intros Hmiss Hpend. unfold get_access_token, cached_token in *. run_step.
  rewrite Hmiss, Hpend. simpl.
  destruct (is_error_status (status_code r)) eqn:Hst; simpl; [reflexivity|].
  destruct (body r) as [[| | | | |l|d]|]; reflexivity.
Qed.

Lemma get_access_token_no_response (w : World) :
  truthy (cached_token w) = false ->
  pending w = [] ->
  get_access_token py_repr w =
    (Raise ConnectionError, set_network [] (sent w ++ [token_request w]) w).
Proof.
  intros Hmiss Hpend. unfold get_access_token, cached_token in *. run_step.
  now rewrite Hmiss, Hpend.
Qed.

(** Once the store has evicted the token, the next call is a miss. *)
Lemma evicted_token_is_a_miss (w : World) :
  truthy (cached_token (cache_evict "access_token" w)) = false.
Proof.
  unfold cached_token, cache_evict. simpl. now rewrite lookup_delete_eq.
Qed.

(** The test is [if token:], so a stored value that Python counts as false,
    such as the empty string, is a miss too; the client itself never stores
    one ([token_text_truthy]). *)
Lemma falsy_cached_value_is_a_miss (w : World) (r : Response) (rest : list Response) :
  cache w !! "access_token" = Some (mkEntry (PyStr "") PyNone) ->
  pending w = r :: rest ->
  sent (snd (get_access_token py_repr w)) = (sent w ++ [token_request w])%list.
Proof.
  intros Hc Hpend.
  rewrite (get_access_token_miss w r rest); [|unfold cached_token; now rewrite Hc|exact Hpend].
  destruct (is_error_status (status_code r)); [reflexivity|].
  destruct (body r) as [[| | | | |l|d]|]; reflexivity.
Qed.

End AuthenticatorFacts.

Section DispatcherFacts.

Variable py_repr : pyval -> string.

Lemma make_api_call_run (w w1 : World) (tok : pyval) (r : Response)
    (rest : list Response) (method uri : string) (data : payload)
    (uri_params : list (string * string)) :
  get_access_token py_repr w = (Ret tok, w1) ->
  pending w1 = r :: rest ->
  let w2 := answered (hierarchy_request tok method uri data uri_params) rest w1 in
  make_api_call py_repr method uri data uri_params w =
    if is_error_status (status_code r) then (Raise (HTTPError r), w2)
    else (Ret r, set_stdout (stdout w2 ++ diagnostics r) w2).
Proof.
  intros Htok Hpend. unfold make_api_call, bind at 1. rewrite Htok.
  run_step. rewrite Hpend. simpl.
  destruct (is_error_status (status_code r)); simpl; [reflexivity|].
  unfold answered, set_stdout, set_network, diagnostics; simpl.
  now rewrite <- app_assoc.
Qed.

(** An exception of the authenticator leaves the dispatcher as it is. *)
Lemma make_api_call_auth_raises (w w1 : World) (e : exn) (method uri : string)
    (data : payload) (uri_params : list (string * string)) :
  get_access_token py_repr w = (Raise e, w1) ->
  make_api_call py_repr method uri data uri_params w = (Raise e, w1).
Proof. intros Htok. unfold make_api_call, bind. now rewrite Htok. Qed.

(** Every operation is one call of the dispatcher: it makes one request and
    raises what the dispatcher raises. *)
Lemma run_op_run (op : node_op) (w w1 : World) (tok : pyval) (r : Response)
    (rest : list Response) :
  get_access_token py_repr w = (Ret tok, w1) ->
  pending w1 = r :: rest ->
  exists rq,
    req_headers rq = req_headers (hierarchy_request tok "" "" NoPayload [])
    /\ run_op py_repr op w =
         if is_error_status (status_code r)
         then (Raise (HTTPError r), answered rq rest w1)
         else (Ret (if returns_response op then Some r else None),
               set_stdout (stdout w1 ++ diagnostics r) (answered rq rest w1)).
Proof.
  intros Htok Hpend.
  destruct op; simpl;
    unfold insert_root_companyunit_node, insert_company_unit_division_node,
      insert_company_unit_site_node, get_root_companyunit_node,
      get_company_unit_node, get_divisions_company_unit_nodes,
      get_sites_company_unit_nodes, get_company_unit_nodes,
      archive_company_unit_node, unarchive_company_unit_node;
    eexists; (split; [|unfold bind; erewrite make_api_call_run by eassumption;
      destruct (is_error_status (status_code r)); reflexivity]); reflexivity.
Qed.

End DispatcherFacts.

(** A run of the script from a cold cache: the token is fetched once and
    serves the three queries. *)
Example main_fetches_the_token_once :
  let w := sample_world ∅ [token_response; envelope [top_company]; envelope []; envelope []] in
  fst (main sample_repr w) = Ret tt
  /\ List.map req_method (sent (snd (main sample_repr w))) = ["POST"; "GET"; "GET"; "GET"]
  /\ List.map (fun rq => dict_lookup "Authorization" (req_headers rq))
       (sent (snd (main sample_repr w)))
     = [None; Some (PyStr "Bearer abc"); Some (PyStr "Bearer abc");
        Some (PyStr "Bearer abc")].
Proof. repeat split; vm_compute; reflexivity. Qed.

Module UrlFacts.
Import Url.

Example urljoin_examples :
  urljoin "https://host/" "/v1/organisation/X/hierarchy/location/nodes"
    = "https://host/v1/organisation/X/hierarchy/location/nodes"
  /\ urljoin "http://a/b/c/d;p?q" "../g" = "http://a/b/g"
  /\ urljoin "http://a/b/c/d;p?q" "g;x?y#s" = "http://a/b/c/g;x?y#s"
  /\ urljoin "http://a/b/c/d;p?q" "?y" = "http://a/b/c/d;p?y"
  /\ urljoin "http://a/b/c/d;p?q" "//g" = "http://g"
  /\ urljoin "http://a/b/c/d;p?q" "../../../g" = "http://a/g"
  /\ urljoin "http://a/b/c/d;p?q" "./" = "http://a/b/c/"
  /\ urljoin "http://a/b/c/d;p?q" "mailto:x@y" = "mailto:x@y"
  /\ urljoin "http://a/b/c/d;p?q" "/a//b/./c" = "http://a/a//b/c"
  /\ urljoin "https://auth.example.com/tenant/" "/oauth/token"
     = "https://auth.example.com/oauth/token".
Proof. repeat split; vm_compute; reflexivity. Qed.

Lemma split_nonempty (c : ascii) (s : string) : split c s <> [].
Proof.
  destruct s as [|a r]; simpl; [discriminate|].
  destruct (Ascii.eqb a c); [discriminate|].
  destruct (split c r); discriminate.
Qed.

Lemma join_split (c : ascii) (s : string) :
  join (String c EmptyString) (split c s) = s.
Proof.
  induction s as [|a r IH]; simpl; [reflexivity|].
  destruct (Ascii.eqb_spec a c) as [->|Hne].
  - pose proof (split_nonempty c r) as Hn.
    destruct (split c r) as [|h t]; [contradiction|].
    change (join (String c "") ("" :: h :: t))
      with ("" +:+ String c "" +:+ join (String c "") (h :: t)).
    rewrite IH. reflexivity.
  - pose proof (split_nonempty c r) as Hn.
    destruct (split c r) as [|h t]; [contradiction|].
    destruct t as [|h' t'].
    + simpl in *. now rewrite IH.
    + change (join (String c "") (String a h :: h' :: t'))
        with (String a (h +:+ String c "" +:+ join (String c "") (h' :: t'))).
      change (join (String c "") (h :: h' :: t'))
        with (h +:+ String c "" +:+ join (String c "") (h' :: t')) in IH.
      now rewrite IH.
Qed.

Lemma cut_absent (c : ascii) (s : string) :
  all_chars (fun a => negb (Ascii.eqb a c)) s = true -> cut c s = None.
Proof.
  induction s as [|a r IH]; simpl; [reflexivity|].
  intros H. apply andb_prop in H as [Ha Hr].
  apply negb_true_iff in Ha. rewrite Ha, (IH Hr). reflexivity.
Qed.

Lemma contains_absent (c : ascii) (s : string) :
  all_chars (fun a => negb (Ascii.eqb a c)) s = true -> contains c s = false.
Proof.
  unfold contains, ascii_in.
  induction s as [|a r IH]; simpl; [reflexivity|].
  intros H. apply andb_prop in H as [Ha Hr].
  apply negb_true_iff in Ha. rewrite Ascii.eqb_sym, Ha, (IH Hr). reflexivity.
Qed.

Lemma all_chars_impl (p q : ascii -> bool) (s : string) :
  (forall a, p a = true -> q a = true) ->
  all_chars p s = true -> all_chars q s = true.
Proof.
  intros Hpq. induction s as [|a r IH]; simpl; [reflexivity|].
  intros H. apply andb_prop in H as [Ha Hr].
  now rewrite (Hpq a Ha), (IH Hr).
Qed.

Lemma not_reserved (a : ascii) :
  negb (ascii_in a "?#;") && negb (is_unsafe a) = true ->
  negb (Ascii.eqb a "?") = true /\ negb (Ascii.eqb a "#") = true
  /\ negb (Ascii.eqb a ";") = true /\ negb (is_unsafe a) = true.
Proof.
  unfold ascii_in. simpl. rewrite andb_true_iff, !negb_true_iff, !orb_false_iff.
  tauto.
Qed.

Lemma remove_unsafe_id (s : string) :
  all_chars (fun a => negb (is_unsafe a)) s = true -> remove_unsafe s = s.
Proof.
  induction s as [|a r IH]; simpl; [reflexivity|].
  intros H. apply andb_prop in H as [Ha Hr].
  apply negb_true_iff in Ha. now rewrite Ha, (IH Hr).
Qed.

(** Without dot segments the loop keeps every segment. *)
Lemma resolve_plain (segments resolved : list string) :
  forallb (fun seg => negb (String.eqb seg "..") && negb (String.eqb seg "."))
    segments = true ->
  resolve segments resolved = (List.rev resolved ++ segments)%list.
Proof.
  revert resolved. induction segments as [|seg rest IH]; intros resolved H; simpl.
  - now rewrite app_nil_r.
  - simpl in H. apply andb_prop in H as [Hseg Hrest].
    apply andb_prop in Hseg as [H2 H1].
    apply negb_true_iff in H2, H1. rewrite H2, H1, (IH _ Hrest). simpl.
    now rewrite <- app_assoc.
Qed.

Lemma last_forallb {A} (p : A -> bool) (l : list A) (d : A) :
  l <> [] -> forallb p l = true -> p (List.last l d) = true.
Proof.
  induction l as [|x l IH]; [contradiction|]. intros _ H.
  simpl in H. apply andb_prop in H as [Hx Hl].
  destruct l as [|y l']; [exact Hx|]. apply IH; [discriminate|exact Hl].
Qed.

(** The parse of a clean path: the whole reference is the path. *)
Lemma urlparse_clean (uri default : string) :
  clean_path uri = true ->
  urlparse uri default = mkParse (remove_unsafe (strip default)) "" uri "" "" "".
Proof.
  unfold clean_path. intros H.
  apply andb_prop in H as [H Hsegs]. apply andb_prop in H as [H Hchars].
  apply andb_prop in H as [Hslash H2]. apply negb_true_iff in H2.
  destruct uri as [|c0 r]; [discriminate|].
  assert (c0 = "/"%char) as ->.
  { simpl in Hslash.
    destruct c0 as [[] [] [] [] [] [] [] []]; try discriminate; reflexivity. }
  assert (Hq : cut "?" (String "/" r) = None).
  { apply cut_absent. eapply all_chars_impl; [|exact Hchars].
    intros a Ha. apply not_reserved in Ha. tauto. }
  assert (Hf : cut "#" (String "/" r) = None).
  { apply cut_absent. eapply all_chars_impl; [|exact Hchars].
    intros a Ha. apply not_reserved in Ha. tauto. }
  assert (Hp : contains ";" (String "/" r) = false).
  { apply contains_absent. eapply all_chars_impl; [|exact Hchars].
    intros a Ha. apply not_reserved in Ha. tauto. }
  assert (Hu : remove_unsafe (lstrip (String "/" r)) = String "/" r).
  { change (lstrip (String "/" r)) with (String "/" r).
    apply remove_unsafe_id. eapply all_chars_impl; [|exact Hchars].
    intros a Ha. apply not_reserved in Ha. tauto. }
  unfold urlparse, urlsplit. rewrite Hu.
  change (split_scheme (String "/" r) (remove_unsafe (strip default)))
    with (remove_unsafe (strip default), String "/" r).
  assert (Hn : split_netloc (String "/" r) = ("", String "/" r)).
  { destruct r as [|c1 r']; [reflexivity|].
    simpl in H2. unfold split_netloc.
    destruct c1 as [[] [] [] [] [] [] [] []]; try reflexivity; discriminate. }
  cbv beta iota. rewrite Hn. cbv beta iota. rewrite Hf. cbv beta iota.
  rewrite Hq. cbv beta iota.
  cbn [sp_scheme sp_netloc sp_path sp_query sp_fragment].
  rewrite Hp, andb_false_r. reflexivity.
Qed.

(** Joining a clean absolute path replaces the base's path and keeps its
    scheme and host. *)
Lemma urljoin_clean_path (base sch host bpath bparams bquery bfragment uri : string) :
  is_empty_string base = false ->
  urlparse base "" = mkParse sch host bpath bparams bquery bfragment ->
  is_empty_string sch = false ->
  remove_unsafe (strip sch) = sch ->
  mem sch uses_relative = true ->
  mem sch uses_netloc = true ->
  clean_path uri = true ->
  urljoin base uri = sch +:+ "://" +:+ host +:+ uri.
Proof.
  intros Hbase Hparse Hsch Hstrip Hrel Hloc Hclean.
  pose proof (urlparse_clean uri sch Hclean) as Hu. rewrite Hstrip in Hu.
  unfold clean_path in Hclean.
  apply andb_prop in Hclean as [H Hsegs]. apply andb_prop in H as [H _].
  apply andb_prop in H as [Hslash H2]. apply negb_true_iff in H2.
  assert (Huri : is_empty_string uri = false) by (destruct uri; [discriminate|reflexivity]).
  unfold urljoin. rewrite Hbase, Huri, Hparse.
  cbn [scheme netloc path params query fragment]. rewrite Hu.
  cbn [scheme netloc path params query fragment].
  rewrite String.eqb_refl, Hrel, Hloc, Huri, Hslash. simpl negb. simpl orb.
  cbn [andb is_empty_string negb].
  rewrite (resolve_plain _ [] Hsegs). simpl List.rev. rewrite app_nil_l.
  pose proof (last_forallb _ (split "/" uri) EmptyString (split_nonempty _ _) Hsegs) as Hlast.
  apply andb_prop in Hlast as [Hl2 Hl1]. apply negb_true_iff in Hl2, Hl1.
  rewrite Hl1, Hl2. simpl orb. cbv iota.
  rewrite (join_split "/" uri), Huri.
  unfold urlunparse. cbn [scheme netloc path params query fragment is_empty_string].
  unfold urlunsplit. rewrite Hsch, Hloc, H2, Huri, Hslash.
  destruct host; simpl; reflexivity.
Qed.

End UrlFacts.

Section Claims.

Variable py_repr : pyval -> string.

(** C1. When the cache holds a token ([if token:] succeeds), [get_access_token]
    returns that value and leaves the world as it was: no request is made.
    So for two calls in a row, the first on a miss that returns, with
    nothing evicted in between: the POST is made once, by the first call,
    and the second call returns the same value and makes no request. *)
Theorem cached_token_served_without_request (w : World) :
  (truthy (cached_token w) = true ->
     get_access_token py_repr w = (Ret (cached_token w), w))
  /\ (forall tok w1,
        truthy (cached_token w) = false ->
        get_access_token py_repr w = (Ret tok, w1) ->
        sent w1 = (sent w ++ [token_request w])%list
        /\ cached_token w1 = tok
        /\ get_access_token py_repr w1 = (Ret tok, w1)).
Proof.
  split; [apply get_access_token_hit|].
  intros tok w1 Hmiss Hrun.
  destruct (pending w) as [|r rest] eqn:Hpend.
  { rewrite get_access_token_no_response in Hrun by assumption. discriminate. }
  rewrite (get_access_token_miss py_repr w r rest Hmiss Hpend) in Hrun.
  destruct (is_error_status (status_code r)); [discriminate|].
  destruct (body r) as [[| | | | |l|d]|]; try discriminate.
  cbv zeta in Hrun. injection Hrun as <- <-.
  match goal with
  | |- _ /\ cached_token ?w1 = ?t /\ _ =>
      assert (Hc : cached_token w1 = t)
        by (unfold cached_token; simpl; now rewrite lookup_insert_eq);
      pose proof (get_access_token_hit py_repr w1) as Hhit
  end.
  rewrite Hc in Hhit.
  split; [reflexivity|]. split; [exact Hc|].
  apply Hhit, token_text_truthy.
Qed.

(** C2, as the code has it.  When the response is successful and its body
    is a JSON object that lacks one of [token_type], [access_token],
    [expires_in], [get_access_token] does not raise, and what it returns is
    not absent: it is the non-empty text of token type, space, token, in
    which a missing one of the two reads [None]; that text is cached with
    the timeout [expires_in], or [None] when that is the missing field. *)
Theorem missing_token_fields_read_None (w : World) (r : Response)
    (rest : list Response) (d : list (string * pyval)) :
  truthy (cached_token w) = false ->
  pending w = r :: rest ->
  is_error_status (status_code r) = false ->
  body r = Some (PyDict d) ->
  dict_lookup "token_type" d = None \/ dict_lookup "access_token" d = None
    \/ dict_lookup "expires_in" d = None ->
  let field k := match dict_lookup k d with
                 | Some v => py_str py_repr v
                 | None => "None"
                 end in
  let text := field "token_type" +:+ " " +:+ field "access_token" in
  exists w',
    get_access_token py_repr w = (Ret (PyStr text), w')
    /\ is_empty_string text = false
    /\ cache w' = <["access_token" :=
                     mkEntry (PyStr text)
                       (default PyNone (dict_lookup "expires_in" d))]> (cache w).
Proof.
  intros Hmiss Hpend Hok Hbody _ field text.
  assert (Htext : py_str py_repr (dict_get "token_type" d) +:+ " "
                    +:+ py_str py_repr (dict_get "access_token" d) = text).
  { unfold text, field, dict_get.
    destruct (dict_lookup "token_type" d), (dict_lookup "access_token" d);
      reflexivity. }
  rewrite (get_access_token_miss py_repr w r rest Hmiss Hpend), Hok, Hbody.
  cbv zeta. rewrite Htext.
  eexists. split; [reflexivity|]. split; [|reflexivity].
  rewrite <- Htext. apply token_text_nonempty.
Qed.

(** C3. When the response is successful and its body holds the strings [T]
    and [A] as [token_type] and [access_token] and [E] as [expires_in],
    [get_access_token] returns [T], a space, [A], and has stored exactly
    that string under [access_token] with timeout [E]. *)
Theorem token_composed_and_cached (w : World) (r : Response)
    (rest : list Response) (d : list (string * pyval)) (T A : string) (E : pyval) :
  truthy (cached_token w) = false ->
  pending w = r :: rest ->
  is_error_status (status_code r) = false ->
  body r = Some (PyDict d) ->
  dict_lookup "token_type" d = Some (PyStr T) ->
  dict_lookup "access_token" d = Some (PyStr A) ->
  dict_lookup "expires_in" d = Some E ->
  exists w',
    get_access_token py_repr w = (Ret (PyStr (T +:+ " " +:+ A)), w')
    /\ cache w' = <["access_token" := mkEntry (PyStr (T +:+ " " +:+ A)) E]> (cache w)
    /\ cached_token w' = PyStr (T +:+ " " +:+ A)
    /\ sent w' = (sent w ++ [token_request w])%list.
Proof.
  intros Hmiss Hpend Hok Hbody HT HA HE.
  rewrite (get_access_token_miss py_repr w r rest Hmiss Hpend), Hok, Hbody.
  unfold dict_get. rewrite HT, HA, HE. simpl.
  eexists. split; [reflexivity|]. split; [reflexivity|]. split; [|reflexivity].
  unfold cached_token. simpl. now rewrite lookup_insert_eq.
Qed.

(** C9. When the status of the authentication response is an error,
    [get_access_token] raises the [HTTPError] of that response and the
    cache is as it was; and whatever [get_access_token] raises, the cache is
    as it was: it is written only on the path that returns. *)
Theorem failed_authentication_leaves_cache (w : World) :
  (forall r rest,
     truthy (cached_token w) = false ->
     pending w = r :: rest ->
     is_error_status (status_code r) = true ->
     exists w', get_access_token py_repr w = (Raise (HTTPError r), w')
                /\ cache w' = cache w)
  /\ (forall e w', get_access_token py_repr w = (Raise e, w') -> cache w' = cache w).
Proof.
  split.
  - intros r rest Hmiss Hpend Herr.
    rewrite (get_access_token_miss py_repr w r rest Hmiss Hpend), Herr.
    eexists. split; reflexivity.
  - intros e w' Hrun.
    destruct (truthy (cached_token w)) eqn:Hhit.
    { rewrite get_access_token_hit in Hrun by assumption. discriminate. }
    destruct (pending w) as [|r rest] eqn:Hpend.
    { rewrite get_access_token_no_response in Hrun by assumption.
      injection Hrun as _ <-. reflexivity. }
    rewrite (get_access_token_miss py_repr w r rest Hhit Hpend) in Hrun.
    destruct (is_error_status (status_code r)).
    { injection Hrun as _ <-. reflexivity. }
    destruct (body r) as [[| | | | |l|d]|]; try discriminate;
      injection Hrun as _ <-; reflexivity.
Qed.

End Claims.

Section DispatcherClaims.

Variable py_repr : pyval -> string.

(** C4. Once the token is in hand, [make_api_call] makes one request and
    takes one response.  When its status is an error (400 to 599) the call
    raises the [HTTPError] of that response, which carries the status code,
    and nothing more is sent; every node operation then raises that same
    exception, after its one request.  Otherwise the call returns the
    response itself. *)
Theorem http_failure_raises_once (w w1 : World) (tok : pyval) (r : Response)
    (rest : list Response) :
  get_access_token py_repr w = (Ret tok, w1) ->
  pending w1 = r :: rest ->
  (forall method uri data uri_params,
     let w2 := answered (hierarchy_request tok method uri data uri_params) rest w1 in
     (is_error_status (status_code r) = true ->
        make_api_call py_repr method uri data uri_params w = (Raise (HTTPError r), w2))
     /\ (is_error_status (status_code r) = false ->
        make_api_call py_repr method uri data uri_params w
          = (Ret r, set_stdout (stdout w1 ++ diagnostics r) w2)))
  /\ (is_error_status (status_code r) = true ->
      forall op, exists rq,
        run_op py_repr op w = (Raise (HTTPError r), answered rq rest w1)).
Proof.
  intros Htok Hpend. split.
  - intros method uri data uri_params w2.
    rewrite (make_api_call_run py_repr w w1 tok r rest method uri data uri_params
               Htok Hpend).
    split; intros ->; reflexivity.
  - intros Herr op.
    destruct (run_op_run py_repr op w w1 tok r rest Htok Hpend) as (rq & _ & Hrun).
    exists rq. now rewrite Hrun, Herr.
Qed.

(** C6, on the code: the request of [insert_company_unit_site_node] goes to
    [/nodes/eedinburgh-office], which is not the short code the rule gives
    the name [Edinburgh Office]; the division's request does follow the
    rule. *)
Theorem site_short_code_differs_from_rule (w w1 : World) (tok : pyval)
    (r : Response) (rest : list Response) :
  get_access_token py_repr w = (Ret tok, w1) ->
  pending w1 = r :: rest ->
  exists rq rq',
    sent (snd (insert_company_unit_site_node py_repr w)) = (sent w1 ++ [rq])%list
    /\ req_method rq = "PUT"
    /\ req_url rq = nodes_url +:+ "/eedinburgh-office"
    /\ req_url rq <> nodes_url +:+ "/" +:+ spec_short_code "Edinburgh Office"
    /\ sent (snd (insert_company_unit_division_node py_repr w)) = (sent w1 ++ [rq'])%list
    /\ req_url rq' = nodes_url +:+ "/" +:+ spec_short_code "Edinburgh".
Proof.
  intros Htok Hpend.
  unfold insert_company_unit_site_node, insert_company_unit_division_node, bind.
  erewrite !make_api_call_run by eassumption.
  do 2 eexists.
  destruct (is_error_status (status_code r)); simpl;
    (split; [reflexivity|]); (split; [reflexivity|]);
    (split; [vm_compute; reflexivity|]);
    (split; [vm_compute; discriminate|]);
    (split; [reflexivity|]); vm_compute; reflexivity.
Qed.

(** C7, as the code has it: [get_divisions_company_unit_nodes] makes one
    request, a GET of the node collection whose only query parameter is
    [$filter] with the value [NodeType eq 'division']. *)
Theorem divisions_request_filters_on_NodeType (w w1 : World) (tok : pyval)
    (r : Response) (rest : list Response) :
  get_access_token py_repr w = (Ret tok, w1) ->
  pending w1 = r :: rest ->
  exists rq,
    sent (snd (get_divisions_company_unit_nodes py_repr w)) = (sent w1 ++ [rq])%list
    /\ req_method rq = "GET"
    /\ req_url rq = nodes_url
    /\ req_params rq = [("$filter", "NodeType eq 'division'")].
Proof.
  intros Htok Hpend. unfold get_divisions_company_unit_nodes.
  erewrite make_api_call_run by eassumption.
  eexists.
  destruct (is_error_status (status_code r)); simpl;
    (split; [reflexivity|]); (split; [reflexivity|]);
    (split; [vm_compute; reflexivity|]); reflexivity.
Qed.

(** C8. The URL of the dispatcher's request is [urljoin] of the base and
    the path, for every path on which [urljoin] returns (one whose authority
    part, if it has one, is plain).  Joined to the base [https://host/], the
    path [/v1/organisation/X/hierarchy/location/nodes] gives
    [https://host/v1/organisation/X/hierarchy/location/nodes]; and joined to
    the client's base, every absolute path free of query, fragment,
    parameters, dot segments and of tab, carriage return and line feed
    gives the base's scheme and host followed by that path. *)
Theorem url_resolution_follows_urljoin :
  Url.urljoin "https://host/" "/v1/organisation/X/hierarchy/location/nodes"
    = "https://host/v1/organisation/X/hierarchy/location/nodes"
  /\ (forall uri,
        clean_path uri = true ->
        Url.urljoin LOCAL_HIERARCHY_URL uri
          = "https://platform-hierarchy-service.localhost.net" +:+ uri)
  /\ (forall w w1 tok r rest method uri data uri_params,
        Url.plain_authority uri = true ->
        get_access_token py_repr w = (Ret tok, w1) ->
        pending w1 = r :: rest ->
        exists rq,
          sent (snd (make_api_call py_repr method uri data uri_params w))
            = (sent w1 ++ [rq])%list
          /\ req_url rq = Url.urljoin LOCAL_HIERARCHY_URL uri).
Proof.
  split; [vm_compute; reflexivity|]. split.
  - intros uri Hclean.
    apply (UrlFacts.urljoin_clean_path LOCAL_HIERARCHY_URL "https"
             "platform-hierarchy-service.localhost.net" "/" "" "" "" uri);
      try (vm_compute; reflexivity). exact Hclean.
  - intros w w1 tok r rest method uri data uri_params _ Htok Hpend.
    erewrite make_api_call_run by eassumption.
    eexists. destruct (is_error_status (status_code r)); simpl;
      split; reflexivity.
Qed.

End DispatcherClaims.

(** C5. On the envelope [{}], [_get_all_node_values] raises [KeyError] for
    the key [value], and [_get_root_value] returns [None] without raising,
    having printed that the key is missing. *)
Theorem extraction_asymmetry_on_empty_envelope (w : World) :
  _get_all_node_values (PyDict []) w = (Raise (KeyError (KStr "value")), w)
  /\ _get_root_value (PyDict []) w
     = (Ret PyNone,
        logged "Error occurred when getting root payload value 'value'" w).
Proof. split; reflexivity. Qed.

(** C10. For an envelope whose [value] is the empty list, [_get_root_value]
    and [_get_root_id] both raise [IndexError].  What they answer with
    [None] is a missing key: for an envelope without [value] both print and
    return [None], and so does [_get_root_id] when the first element has no
    [Id]; for an envelope whose [value] is a list, [_get_root_value] is the
    subscript [l[0]] itself and [_get_root_id] swallows nothing but the
    missing [Id]. *)
Theorem empty_value_list_raises_IndexError (d : list (string * pyval)) (w : World) :
  (dict_lookup "value" d = Some (PyList []) ->
     _get_root_value (PyDict d) w = (Raise IndexError, w)
     /\ _get_root_id (PyDict d) w = (Raise IndexError, w))
  /\ (dict_lookup "value" d = None ->
     _get_root_value (PyDict d) w
       = (Ret PyNone, logged "Error occurred when getting root payload value 'value'" w)
     /\ _get_root_id (PyDict d) w
       = (Ret PyNone, logged "Error occurred when getting root id 'value'" w))
  /\ (forall l,
        dict_lookup "value" d = Some (PyList l) ->
        _get_root_value (PyDict d) w
          = match l with
            | [] => (Raise IndexError, w)
            | first :: _ => (Ret first, w)
            end
        /\ _get_root_id (PyDict d) w
          = match l with
            | [] => (Raise IndexError, w)
            | PyDict e :: _ =>
                match dict_lookup "Id" e with
                | Some id => (Ret id, w)
                | None => (Ret PyNone, logged "Error occurred when getting root id 'Id'" w)
                end
            | _ :: _ => (Raise TypeError, w)
            end).
Proof.
  unfold _get_root_value, _get_root_id, try_except_KeyError, bind. simpl.
  split; [|split].
  - intros ->. split; reflexivity.
  - intros ->. split; reflexivity.
  - intros l ->. simpl. destruct l as [|first l']; [split; reflexivity|].
    split; [reflexivity|].
    destruct first as [| | | | | |e]; try reflexivity.
    simpl. destruct (dict_lookup "Id" e); reflexivity.
Qed.

(** A [value] that is an object has no key [0]: that [KeyError] too is
    answered with [None]. *)
Lemma object_value_answered_with_None (d e : list (string * pyval)) (w : World) :
  dict_lookup "value" d = Some (PyDict e) ->
  _get_root_value (PyDict d) w
    = (Ret PyNone, logged "Error occurred when getting root payload value 0" w)
  /\ _get_root_id (PyDict d) w
    = (Ret PyNone, logged "Error occurred when getting root id 0" w).
Proof.
  unfold _get_root_value, _get_root_id, try_except_KeyError, bind. simpl.
  intros ->. split; reflexivity.
Qed.

(** ** The claims on sample runs *)

Ltac by_run := vm_compute; reflexivity.

Lemma cached_token_served_without_request_witness :
  let hit := sample_world warm_cache [] in
  let miss := sample_world ∅ [token_response] in
  let w1 := snd (get_access_token sample_repr miss) in
  (truthy (cached_token hit) = true
   /\ get_access_token sample_repr hit = (Ret (PyStr "Bearer abc"), hit))
  /\ (truthy (cached_token miss) = false
      /\ get_access_token sample_repr miss = (Ret (PyStr "Bearer abc"), w1)
      /\ sent w1 = [token_request miss]
      /\ cached_token w1 = PyStr "Bearer abc"
      /\ get_access_token sample_repr w1 = (Ret (PyStr "Bearer abc"), w1)).
Proof.
  intros hit miss w1.
  assert (Hhit : truthy (cached_token hit) = true) by by_run.
  assert (Hmiss : truthy (cached_token miss) = false) by by_run.
  assert (Hrun : get_access_token sample_repr miss = (Ret (PyStr "Bearer abc"), w1))
    by by_run.
  split.
  - split; [exact Hhit|].
    exact (proj1 (cached_token_served_without_request sample_repr hit) Hhit).
  - split; [exact Hmiss|]. split; [exact Hrun|].
    exact (proj2 (cached_token_served_without_request sample_repr miss)
             _ _ Hmiss Hrun).
Defined.

(** C2 as stated fails: with the body [{}] the call returns the text
    [None None], which is neither [None] nor empty. *)
Lemma missing_fields_result_is_not_absent :
  let w := sample_world ∅ [mkResponse 200 (Some (PyDict []))] in
  is_error_status 200 = false
  /\ fst (get_access_token sample_repr w) = Ret (PyStr "None None")
  /\ fst (get_access_token sample_repr w) <> Ret PyNone
  /\ fst (get_access_token sample_repr w) <> Ret (PyStr "").
Proof.
  intros w. split; [reflexivity|].
  assert (Hrun : fst (get_access_token sample_repr w) = Ret (PyStr "None None"))
    by by_run.
  split; [exact Hrun|]. rewrite Hrun. split; discriminate.
Qed.

Lemma missing_token_fields_read_None_witness :
  let d := [("token_type", PyStr "Bearer")] in
  let r := mkResponse 200 (Some (PyDict d)) in
  let w := sample_world ∅ [r] in
  exists w',
    get_access_token sample_repr w = (Ret (PyStr "Bearer None"), w')
    /\ is_empty_string "Bearer None" = false
    /\ cache w' = <["access_token" := mkEntry (PyStr "Bearer None") PyNone]> (cache w).
Proof.
  intros d r w.
  apply (missing_token_fields_read_None sample_repr w r [] d).
  - by_run.
  - reflexivity.
  - reflexivity.
  - reflexivity.
  - right. left. reflexivity.
Defined.

Lemma token_composed_and_cached_witness :
  let w := sample_world ∅ [token_response] in
  exists w',
    get_access_token sample_repr w = (Ret (PyStr "Bearer abc"), w')
    /\ cache w' = <["access_token" := mkEntry (PyStr "Bearer abc") (PyInt 3600)]> (cache w)
    /\ cached_token w' = PyStr "Bearer abc"
    /\ sent w' = [token_request w].
Proof.
  intros w.
  apply (token_composed_and_cached sample_repr w token_response []
           [("token_type", PyStr "Bearer"); ("access_token", PyStr "abc");
            ("expires_in", PyInt 3600)] "Bearer" "abc" (PyInt 3600)).
  - by_run.
  - reflexivity.
  - reflexivity.
  - reflexivity.
  - reflexivity.
  - reflexivity.
  - reflexivity.
Defined.

Lemma failed_authentication_leaves_cache_witness :
  let r := mkResponse 401 None in
  let w := sample_world ∅ [r] in
  let run := get_access_token sample_repr w in
  (exists w', run = (Raise (HTTPError r), w') /\ cache w' = cache w)
  /\ cache (snd run) = cache w.
Proof.
  intros r w run. split.
  - apply (proj1 (failed_authentication_leaves_cache sample_repr w) r []).
    + by_run.
    + reflexivity.
    + reflexivity.
  - apply (proj2 (failed_authentication_leaves_cache sample_repr w)
             (HTTPError r) (snd run)).
    by_run.
Defined.

Lemma http_failure_raises_once_witness :
  let r := mkResponse 401 None in
  let w := sample_world warm_cache [r] in
  let tok := PyStr "Bearer abc" in
  get_access_token sample_repr w = (Ret tok, w)
  /\ is_error_status (status_code r) = true
  /\ make_api_call sample_repr "GET" "/v1/x" NoPayload [] w
     = (Raise (HTTPError r),
        answered (hierarchy_request tok "GET" "/v1/x" NoPayload []) [] w)
  /\ forall op, exists rq,
       run_op sample_repr op w = (Raise (HTTPError r), answered rq [] w).
Proof.
  intros r w tok.
  assert (Htok : get_access_token sample_repr w = (Ret tok, w)) by by_run.
  assert (Herr : is_error_status (status_code r) = true) by reflexivity.
  pose proof (http_failure_raises_once sample_repr w w tok r [] Htok eq_refl)
    as [Hcall Hops].
  split; [exact Htok|]. split; [exact Herr|]. split.
  - exact (proj1 (Hcall "GET" "/v1/x" NoPayload []) Herr).
  - exact (Hops Herr).
Defined.

Lemma site_short_code_differs_from_rule_witness :
  let w := sample_world warm_cache [mkResponse 200 None] in
  exists rq rq',
    sent (snd (insert_company_unit_site_node sample_repr w)) = [rq]
    /\ req_method rq = "PUT"
    /\ req_url rq = nodes_url +:+ "/eedinburgh-office"
    /\ req_url rq <> nodes_url +:+ "/" +:+ spec_short_code "Edinburgh Office"
    /\ sent (snd (insert_company_unit_division_node sample_repr w)) = [rq']
    /\ req_url rq' = nodes_url +:+ "/" +:+ spec_short_code "Edinburgh".
Proof.
  intros w.
  apply (site_short_code_differs_from_rule sample_repr w w (PyStr "Bearer abc")
           (mkResponse 200 None) []).
  - by_run.
  - reflexivity.
Defined.

(** C7 as stated fails: the filter sent is not [nodeType eq 'division']. *)
Lemma divisions_filter_is_not_nodeType :
  let w := sample_world warm_cache [mkResponse 200 None] in
  exists rq,
    sent (snd (get_divisions_company_unit_nodes sample_repr w)) = [rq]
    /\ req_params rq = [("$filter", "NodeType eq 'division'")]
    /\ req_params rq <> [("$filter", "nodeType eq 'division'")].
Proof.
  intros w. eexists. split; [by_run|]. split; [reflexivity|]. discriminate.
Qed.

Lemma divisions_request_filters_on_NodeType_witness :
  let w := sample_world warm_cache [mkResponse 200 None] in
  exists rq,
    sent (snd (get_divisions_company_unit_nodes sample_repr w)) = [rq]
    /\ req_method rq = "GET"
    /\ req_url rq = nodes_url
    /\ req_params rq = [("$filter", "NodeType eq 'division'")].
Proof.
  intros w.
  apply (divisions_request_filters_on_NodeType sample_repr w w
           (PyStr "Bearer abc") (mkResponse 200 None) []).
  - by_run.
  - reflexivity.
Defined.

Lemma url_resolution_follows_urljoin_witness :
  let uri := "/v1/organisation/X/hierarchy/location/nodes" in
  let w := sample_world warm_cache [mkResponse 200 None] in
  clean_path uri = true
  /\ Url.plain_authority uri = true
  /\ Url.urljoin LOCAL_HIERARCHY_URL uri
     = "https://platform-hierarchy-service.localhost.net" +:+ uri
  /\ exists rq,
       sent (snd (make_api_call sample_repr "GET" uri NoPayload [] w)) = [rq]
       /\ req_url rq = Url.urljoin LOCAL_HIERARCHY_URL uri.
Proof.
  intros uri w.
  assert (Hclean : clean_path uri = true) by by_run.
  assert (Hplain : Url.plain_authority uri = true) by by_run.
  destruct (url_resolution_follows_urljoin sample_repr) as (_ & Hjoin & Hsend).
  split; [exact Hclean|]. split; [exact Hplain|].
  split; [exact (Hjoin uri Hclean)|].
  apply (Hsend w w (PyStr "Bearer abc") (mkResponse 200 None) []).
  - exact Hplain.
  - by_run.
  - reflexivity.
Defined.

Lemma empty_value_list_raises_IndexError_witness :
  let w := sample_world ∅ [] in
  (_get_root_value (PyDict [("value", PyList [])]) w = (Raise IndexError, w)
   /\ _get_root_id (PyDict [("value", PyList [])]) w = (Raise IndexError, w))
  /\ (_get_root_value (PyDict [("other", PyNone)]) w
        = (Ret PyNone, logged "Error occurred when getting root payload value 'value'" w)
      /\ _get_root_id (PyDict [("other", PyNone)]) w
        = (Ret PyNone, logged "Error occurred when getting root id 'value'" w))
  /\ (_get_root_value (PyDict [("value", PyList [PyDict [("Name", PyStr "Top")]])]) w
        = (Ret (PyDict [("Name", PyStr "Top")]), w)
      /\ _get_root_id (PyDict [("value", PyList [PyDict [("Name", PyStr "Top")]])]) w
        = (Ret PyNone, logged "Error occurred when getting root id 'Id'" w)).
Proof.
  intros w. split; [|split].
  - apply (proj1 (empty_value_list_raises_IndexError [("value", PyList [])] w)).
    reflexivity.
  - apply (proj1 (proj2 (empty_value_list_raises_IndexError [("other", PyNone)] w))).
    reflexivity.
  - apply (proj2 (proj2 (empty_value_list_raises_IndexError
                           [("value", PyList [PyDict [("Name", PyStr "Top")]])] w))
             [PyDict [("Name", PyStr "Top")]]).
    reflexivity.
Defined.

(** * Further properties of the client *)

Section AuthenticatorMore.

Variable py_repr : pyval -> string.

Lemma get_access_token_returned (w w1 : World) (tok : pyval) :
  get_access_token py_repr w = (Ret tok, w1) ->
  truthy tok = true
  /\ tok <> PyNone
  /\ cached_token w1 = tok
  /\ get_access_token py_repr w1 = (Ret tok, w1).
Proof.
  intros Hrun.
  assert (Hboth : truthy tok = true /\ cached_token w1 = tok).
  { destruct (truthy (cached_token w)) eqn:Hhit.
    - rewrite get_access_token_hit in Hrun by assumption.
      injection Hrun as <- <-. split; [exact Hhit|reflexivity].
    - destruct (pending w) as [|r rest] eqn:Hpend.
      { rewrite get_access_token_no_response in Hrun by assumption. discriminate. }
      rewrite (get_access_token_miss py_repr w r rest Hhit Hpend) in Hrun.
      destruct (is_error_status (status_code r)); [discriminate|].
      destruct (body r) as [[| | | | |l|d]|]; try discriminate.
      cbv zeta in Hrun. injection Hrun as <- <-.
      split; [apply token_text_truthy|].
      unfold cached_token. simpl. now rewrite lookup_insert_eq. }
  destruct Hboth as [Htruthy Hcached].
  split; [exact Htruthy|]. split; [intros ->; discriminate|].
  split; [exact Hcached|].
  rewrite <- Hcached at 1. apply get_access_token_hit. now rewrite Hcached.
Qed.

Lemma get_access_token_frame (w w1 : World) (o : outcome pyval) :
  get_access_token py_repr w = (o, w1) ->
  stdout w1 = stdout w
  /\ settings w1 = settings w
  /\ (forall k, k <> "access_token" -> cache w1 !! k = cache w !! k)
  /\ ((sent w1 = sent w /\ pending w1 = pending w)
      \/ (sent w1 = (sent w ++ [token_request w])%list
          /\ pending w1 = List.tl (pending w))).
Proof.
  intros Hrun.
  destruct (truthy (cached_token w)) eqn:Hhit.
  { rewrite get_access_token_hit in Hrun by assumption.
    injection Hrun as _ <-. repeat split; auto. }
  destruct (pending w) as [|r rest] eqn:Hpend.
  { rewrite get_access_token_no_response in Hrun by assumption.
    injection Hrun as _ <-. repeat split; auto. }
  rewrite (get_access_token_miss py_repr w r rest Hhit Hpend) in Hrun.
  destruct (is_error_status (status_code r)).
  { injection Hrun as _ <-. repeat split; auto. }
  destruct (body r) as [[| | | | |l|d]|];
    cbv zeta in Hrun; injection Hrun as _ <-; repeat split; auto.
  intros k Hk. simpl. now rewrite lookup_insert_ne.
Qed.

(** What [get_access_token] returns is never [None] or empty, it is what
    the cache holds afterwards, and a call right after returns it again
    without a request. *)
Theorem returned_token_is_cached (w w1 : World) (tok : pyval) :
  get_access_token py_repr w = (Ret tok, w1) ->
  truthy tok = true
  /\ tok <> PyNone
  /\ cached_token w1 = tok
  /\ get_access_token py_repr w1 = (Ret tok, w1).
Proof. apply get_access_token_returned. Qed.

(** Whatever the outcome, [get_access_token] prints nothing, keeps the
    settings, writes no cache key but [access_token], and sends either
    nothing or the one token request, which takes the first pending
    response. *)
Theorem get_access_token_footprint (w w1 : World) (o : outcome pyval) :
  get_access_token py_repr w = (o, w1) ->
  stdout w1 = stdout w
  /\ settings w1 = settings w
  /\ (forall k, k <> "access_token" -> cache w1 !! k = cache w !! k)
  /\ ((sent w1 = sent w /\ pending w1 = pending w)
      \/ (sent w1 = (sent w ++ [token_request w])%list
          /\ pending w1 = List.tl (pending w))).
Proof. apply get_access_token_frame. Qed.

(** A successful response whose body is not JSON raises [JSONDecodeError],
    and one whose body is JSON but not an object raises [AttributeError];
    in both cases the POST has been made and the cache is as it was. *)
Theorem non_object_token_body_raises (w : World) (r : Response) (rest : list Response) :
  truthy (cached_token w) = false ->
  pending w = r :: rest ->
  is_error_status (status_code r) = false ->
  let w1 := set_network rest (sent w ++ [token_request w]) w in
  (body r = None -> get_access_token py_repr w = (Raise JSONDecodeError, w1))
  /\ (forall v, body r = Some v -> is_object v = false ->
        get_access_token py_repr w = (Raise AttributeError, w1))
  /\ cache w1 = cache w.
Proof.
  intros Hmiss Hpend Hok w1.
  rewrite (get_access_token_miss py_repr w r rest Hmiss Hpend), Hok.
  split; [intros ->; reflexivity|]. split; [|reflexivity].
  intros v -> Hv. destruct v; try reflexivity. discriminate.
Qed.

End AuthenticatorMore.

Section DispatcherMore.

Variable py_repr : pyval -> string.

(** Every operation is [make_api_call] on fixed arguments, with the
    response handed back by the queries and dropped by the others. *)
Lemma run_op_as_dispatch (op : node_op) :
  exists method uri data uri_params,
    forall w,
      run_op py_repr op w =
        match make_api_call py_repr method uri data uri_params w with
        | (Ret r, w') => (Ret (if returns_response op then Some r else None), w')
        | (Raise e, w') => (Raise e, w')
        end.
Proof.
  destruct op; simpl;
    unfold insert_root_companyunit_node, insert_company_unit_division_node,
      insert_company_unit_site_node, get_root_companyunit_node,
      get_company_unit_node, get_divisions_company_unit_nodes,
      get_sites_company_unit_nodes, get_company_unit_nodes,
      archive_company_unit_node, unarchive_company_unit_node;
    do 4 eexists; intros w; unfold bind, ret;
    match goal with
    | |- ?L = ?R =>
        match L with
        | context [make_api_call _ ?m ?u ?d ?q w] =>
            match R with
            | context [make_api_call _ ?m' ?u' ?d' ?q' w] =>
                unify m m'; unify u u'; unify d d'; unify q q';
                destruct (make_api_call py_repr m u d q w) as [[r|e] w']
            end
        end
    end; reflexivity.
Qed.

Lemma make_api_call_no_response (w w1 : World) (tok : pyval) (method uri : string)
    (data : payload) (uri_params : list (string * string)) :
  get_access_token py_repr w = (Ret tok, w1) ->
  pending w1 = [] ->
  make_api_call py_repr method uri data uri_params w
    = (Raise ConnectionError,
       answered (hierarchy_request tok method uri data uri_params) [] w1).
Proof.
  intros Htok Hpend. unfold make_api_call, bind at 1. rewrite Htok.
  run_step. now rewrite Hpend.
Qed.

(** When the authenticator raises, the dispatcher and every operation raise
    the same exception in the world the authenticator left: the hierarchy
    service is not called and nothing is printed. *)
Theorem authentication_failure_stops_dispatch (w w1 : World) (e : exn) :
  get_access_token py_repr w = (Raise e, w1) ->
  (forall method uri data uri_params,
     make_api_call py_repr method uri data uri_params w = (Raise e, w1))
  /\ (forall op, run_op py_repr op w = (Raise e, w1))
  /\ stdout w1 = stdout w
  /\ cache w1 = cache w
  /\ (sent w1 = sent w \/ sent w1 = (sent w ++ [token_request w])%list).
Proof.
  intros Hrun.
  assert (Hcall : forall method uri data uri_params,
             make_api_call py_repr method uri data uri_params w = (Raise e, w1))
    by (intros; now apply make_api_call_auth_raises).
  split; [exact Hcall|]. split.
  - intros op. destruct (run_op_as_dispatch op) as (m & u & d & q & Hop).
    now rewrite Hop, Hcall.
  - destruct (get_access_token_frame py_repr w w1 _ Hrun)
      as (Hout & _ & _ & Hsent).
    split; [exact Hout|]. split.
    + destruct (truthy (cached_token w)) eqn:Hhit.
      { rewrite get_access_token_hit in Hrun by assumption. discriminate. }
      destruct (pending w) as [|r rest] eqn:Hpend.
      { rewrite get_access_token_no_response in Hrun by assumption.
        injection Hrun as _ <-. reflexivity. }
      rewrite (get_access_token_miss py_repr w r rest Hhit Hpend) in Hrun.
      destruct (is_error_status (status_code r)).
      { injection Hrun as _ <-. reflexivity. }
      destruct (body r) as [[| | | | |l|d]|]; try discriminate;
        injection Hrun as _ <-; reflexivity.
    + destruct Hsent as [[Hs _]|[Hs _]]; [left|right]; exact Hs.
Qed.

(** One call of the dispatcher sends at most two requests, the token POST
    (if any) first; it prints its two lines exactly when it returns, and
    nothing when it raises; and it writes no cache key but [access_token]. *)
Theorem dispatch_footprint (w w' : World) (o : outcome Response)
    (method uri : string) (data : payload) (uri_params : list (string * string)) :
  make_api_call py_repr method uri data uri_params w = (o, w') ->
  (exists new, sent w' = (sent w ++ new)%list /\ (List.length new <= 2)%nat
               /\ (List.length new = 2%nat ->
                   List.hd_error new = Some (token_request w)))
  /\ match o with
     | Ret r => stdout w' = (stdout w ++ diagnostics r)%list
                /\ is_error_status (status_code r) = false
     | Raise _ => stdout w' = stdout w
     end
  /\ (forall k, k <> "access_token" -> cache w' !! k = cache w !! k).
Proof.
  intros Hrun.
  destruct (get_access_token py_repr w) as [[tok|e] w1] eqn:Htok.
  - destruct (get_access_token_frame py_repr w w1 _ Htok)
      as (Hout & _ & Hcache & Hsent).
    assert (Hnew : forall rq, exists new,
               (sent w1 ++ [rq] = sent w ++ new)%list /\ (List.length new <= 2)%nat
               /\ (List.length new = 2%nat ->
                   List.hd_error new = Some (token_request w))).
    { intros rq. destruct Hsent as [[Hs _]|[Hs _]]; rewrite Hs.
      - exists [rq]. repeat split; simpl; auto; discriminate.
      - exists [token_request w; rq]. rewrite <- app_assoc.
        repeat split; simpl; auto. }
    destruct (pending w1) as [|r rest] eqn:Hpend.
    + rewrite (make_api_call_no_response w w1 tok) in Hrun by assumption.
      injection Hrun as <- <-. simpl. split; [apply Hnew|]. split; [exact Hout|].
      exact Hcache.
    + rewrite (make_api_call_run py_repr w w1 tok r rest) in Hrun by assumption.
      destruct (is_error_status (status_code r)) eqn:Hst;
        injection Hrun as <- <-; simpl;
        (split; [apply Hnew|]); (split; [|exact Hcache]).
      * exact Hout.
      * split; [now rewrite Hout|exact Hst].
  - rewrite (make_api_call_auth_raises py_repr w w1 e) in Hrun by assumption.
    injection Hrun as <- <-.
    destruct (get_access_token_frame py_repr w w1 _ Htok)
      as (Hout & _ & Hcache & Hsent).
    split; [|split; [exact Hout|exact Hcache]].
    destruct Hsent as [[Hs _]|[Hs _]]; rewrite Hs.
    + exists []. rewrite app_nil_r. repeat split; simpl; auto; discriminate.
    + exists [token_request w]. repeat split; simpl; auto; discriminate.
Qed.

(** Once a response has come back from the hierarchy service, the
    [Authorization] header of the request that got it is the token the
    cache holds when the call ends. *)
Theorem authorization_header_is_cached_token (w w' : World) (o : outcome Response)
    (tok : pyval) (w1 : World) (r : Response) (rest : list Response)
    (method uri : string) (data : payload) (uri_params : list (string * string)) :
  get_access_token py_repr w = (Ret tok, w1) ->
  pending w1 = r :: rest ->
  make_api_call py_repr method uri data uri_params w = (o, w') ->
  exists rq,
    List.last (sent w') rq = rq
    /\ sent w' = (sent w1 ++ [rq])%list
    /\ dict_lookup "Authorization" (req_headers rq) = Some (cached_token w')
    /\ dict_lookup "Content-Type" (req_headers rq) = Some (PyStr "application/json")
    /\ dict_lookup "accept" (req_headers rq) = Some (PyStr "application/json").
Proof.
  intros Htok Hpend Hrun.
  destruct (get_access_token_returned py_repr w w1 tok Htok) as (_ & _ & Hc & _).
  rewrite (make_api_call_run py_repr w w1 tok r rest) in Hrun by assumption.
  exists (hierarchy_request tok method uri data uri_params).
  destruct (is_error_status (status_code r)); injection Hrun as <- <-; simpl;
    rewrite last_last; repeat split; try reflexivity;
    unfold cached_token in *; simpl; now rewrite Hc.
Qed.

(** On a status that is not an error every operation makes its one request
    and prints the two lines; the five queries hand the response back and
    the inserts and archives hand back nothing. *)
Theorem operations_on_success (op : node_op) (w w1 : World) (tok : pyval)
    (r : Response) (rest : list Response) :
  get_access_token py_repr w = (Ret tok, w1) ->
  pending w1 = r :: rest ->
  is_error_status (status_code r) = false ->
  exists rq,
    run_op py_repr op w
      = (Ret (if returns_response op then Some r else None),
         set_stdout (stdout w1 ++ diagnostics r) (answered rq rest w1))
    /\ dict_lookup "Authorization" (req_headers rq) = Some tok.
Proof.
  intros Htok Hpend Hok.
  destruct (run_op_run py_repr op w w1 tok r rest Htok Hpend) as (rq & Hh & Hrun).
  exists rq. rewrite Hrun, Hok. split; [reflexivity|]. now rewrite Hh.
Qed.

End DispatcherMore.

Module UrlMore.
Import Url.

Lemma split_app_sep (c : ascii) (a b : string) :
  split c (a +:+ String c b) = (split c a ++ split c b)%list.
Proof.
  induction a as [|x a IH]; simpl.
  - now rewrite Ascii.eqb_refl.
  - destruct (Ascii.eqb x c); [now rewrite IH|].
    rewrite IH. pose proof (UrlFacts.split_nonempty c a) as Hn.
    destruct (split c a); [contradiction|reflexivity].
Qed.

Lemma split_without_sep (c : ascii) (s : string) :
  all_chars (fun a => negb (Ascii.eqb a c)) s = true -> split c s = [s].
Proof.
  induction s as [|x s IH]; simpl; [reflexivity|].
  intros H. apply andb_prop in H as [Hx Hs].
  apply negb_true_iff in Hx. now rewrite Hx, (IH Hs).
Qed.

Lemma all_chars_app (p : ascii -> bool) (a b : string) :
  all_chars p (a +:+ b) = all_chars p a && all_chars p b.
Proof.
  induction a as [|x a IH]; simpl; [reflexivity|].
  now rewrite IH, andb_assoc.
Qed.

(** The path of a node is clean when its identifier is a clean segment. *)
Lemma node_path_clean (nodeId : string) :
  clean_segment nodeId = true ->
  clean_path (nodes_uri +:+ "/" +:+ nodeId) = true.
Proof.
  unfold clean_segment, clean_path. intros H.
  apply andb_prop in H as [H Hdot]. apply andb_prop in H as [Hchars Hdotdot].
  change (nodes_uri +:+ "/" +:+ nodeId) with (nodes_uri +:+ String "/" nodeId).
  rewrite split_app_sep, forallb_app, all_chars_app.
  assert (Hsplit : forall a,
             negb (ascii_in a "/?#;") && negb (is_unsafe a) = true ->
             negb (Ascii.eqb a "/") = true
             /\ negb (ascii_in a "?#;") && negb (is_unsafe a) = true).
  { intros a Ha. unfold ascii_in in *. simpl in *.
    rewrite andb_true_iff, !negb_true_iff, !orb_false_iff in *. tauto. }
  rewrite (split_without_sep "/" nodeId).
  2:{ eapply UrlFacts.all_chars_impl; [|exact Hchars].
      intros a Ha. now apply Hsplit. }
  assert (Hc : all_chars (fun c => negb (ascii_in c "?#;") && negb (is_unsafe c))
                 (String "/" nodeId) = true).
  { simpl. eapply UrlFacts.all_chars_impl; [|exact Hchars].
    intros a Ha. now apply Hsplit. }
  rewrite Hc. simpl forallb at 2. rewrite Hdot, Hdotdot.
  vm_compute. reflexivity.
Qed.

End UrlMore.

Section RequestsOfOperations.

Variable py_repr : pyval -> string.

(** The four collection queries make the same GET of the node collection
    and differ only in the filter: [ShortCode eq 'root'] for the root,
    [NodeType eq 'division'] and [NodeType eq 'site'] for divisions and
    sites, [ShortCode ne 'root'] for all nodes but the root. *)
Theorem collection_queries_differ_in_filter (w w1 : World) (tok : pyval)
    (r : Response) (rest : list Response) :
  get_access_token py_repr w = (Ret tok, w1) ->
  pending w1 = r :: rest ->
  let sent_by (m : M Response) := sent (snd (m w)) in
  sent_by (get_root_companyunit_node py_repr)
    = (sent w1 ++ [collection_query tok "ShortCode eq 'root'"])%list
  /\ sent_by (get_divisions_company_unit_nodes py_repr)
    = (sent w1 ++ [collection_query tok "NodeType eq 'division'"])%list
  /\ sent_by (get_sites_company_unit_nodes py_repr)
    = (sent w1 ++ [collection_query tok "NodeType eq 'site'"])%list
  /\ sent_by (get_company_unit_nodes py_repr)
    = (sent w1 ++ [collection_query tok "ShortCode ne 'root'"])%list
  /\ forall filter, req_url (collection_query tok filter) = nodes_url
                    /\ req_data (collection_query tok filter) = NoPayload.
Proof.
  intros Htok Hpend sent_by. unfold sent_by.
  unfold get_root_companyunit_node, get_divisions_company_unit_nodes,
    get_sites_company_unit_nodes, get_company_unit_nodes.
  erewrite !make_api_call_run by eassumption.
  assert (Hq : forall flt, req_url (collection_query tok flt) = nodes_url
                           /\ req_data (collection_query tok flt) = NoPayload).
  { intros flt. split; [vm_compute; reflexivity|reflexivity]. }
  destruct (is_error_status (status_code r)); simpl;
    (split; [reflexivity|]); (split; [reflexivity|]); (split; [reflexivity|]);
    (split; [reflexivity|]); exact Hq.
Qed.

(** For an identifier that is a clean path segment, fetching, archiving and
    unarchiving a node all address [nodes/<id>] of the collection: a GET
    with no body, and a PATCH whose one operation replaces [/Archived] by
    true, respectively false. *)
Theorem node_requests_address_the_node (nodeId : string) (w w1 : World)
    (tok : pyval) (r : Response) (rest : list Response) :
  clean_segment nodeId = true ->
  get_access_token py_repr w = (Ret tok, w1) ->
  pending w1 = r :: rest ->
  let patch (flag : bool) :=
    JsonDumps (PyList [PyDict [("value", PyBool flag);
                               ("path", PyStr "/Archived");
                               ("op", PyStr "replace")]]) in
  let request method data :=
    mkRequest method (nodes_url +:+ "/" +:+ nodeId) [] data
      [("Authorization", tok); ("Content-Type", PyStr "application/json");
       ("accept", PyStr "application/json")] in
  sent (snd (get_company_unit_node py_repr nodeId w))
    = (sent w1 ++ [request "GET" NoPayload])%list
  /\ sent (snd (archive_company_unit_node py_repr nodeId w))
    = (sent w1 ++ [request "PATCH" (patch true)])%list
  /\ sent (snd (unarchive_company_unit_node py_repr nodeId w))
    = (sent w1 ++ [request "PATCH" (patch false)])%list.
Proof.
  intros Hclean Htok Hpend patch request.
  assert (Hurl : Url.urljoin LOCAL_HIERARCHY_URL (nodes_uri +:+ "/" +:+ nodeId)
                 = nodes_url +:+ "/" +:+ nodeId).
  { transitivity ("https" +:+ "://" +:+ "platform-hierarchy-service.localhost.net"
                    +:+ (nodes_uri +:+ "/" +:+ nodeId)); [|reflexivity].
    apply (UrlFacts.urljoin_clean_path LOCAL_HIERARCHY_URL "https"
             "platform-hierarchy-service.localhost.net" "/" "" "" "").
    - reflexivity.
    - vm_compute; reflexivity.
    - reflexivity.
    - reflexivity.
    - reflexivity.
    - reflexivity.
    - exact (UrlMore.node_path_clean nodeId Hclean). }
  unfold get_company_unit_node, archive_company_unit_node,
    unarchive_company_unit_node, bind.
  erewrite !make_api_call_run by eassumption.
  unfold request, patch, hierarchy_request.
  change ("/v1/organisation/" +:+ ORG_ID +:+ "/hierarchy/" +:+ HIERARCHY_TYPE
            +:+ "/nodes/" +:+ nodeId) with (nodes_uri +:+ "/" +:+ nodeId).
  rewrite Hurl.
  destruct (is_error_status (status_code r)); simpl; repeat split; reflexivity.
Qed.

End RequestsOfOperations.

(** ** The helpers on every payload *)

Lemma same_but_stdout_refl (w : World) : same_but_stdout w w.
Proof. repeat split. Qed.

Lemma same_but_stdout_trans (w1 w2 w3 : World) :
  same_but_stdout w1 w2 -> same_but_stdout w2 w3 -> same_but_stdout w1 w3.
Proof.
  unfold same_but_stdout. intros (a & b & c & d) (a' & b' & c' & d').
  repeat split; congruence.
Qed.

Lemma offline_ret {A} (a : A) : offline (ret a).
Proof. intros w. apply same_but_stdout_refl. Qed.

Lemma offline_raise {A} (e : exn) : offline (@raise A e).
Proof. intros w. apply same_but_stdout_refl. Qed.

Lemma offline_print (line : string) : offline (print line).
Proof. intros w. repeat split. Qed.

Lemma offline_bind {A B} (m : M A) (k : A -> M B) :
  offline m -> (forall a, offline (k a)) -> offline (bind m k).
Proof.
  intros Hm Hk w. unfold bind. specialize (Hm w).
  destruct (m w) as [[a|e] w1]; simpl in *; [|exact Hm].
  eapply same_but_stdout_trans; [exact Hm|apply Hk].
Qed.

Lemma offline_try {A} (m : M A) (h : key -> M A) :
  offline m -> (forall k, offline (h k)) -> offline (try_except_KeyError m h).
Proof.
  intros Hm Hh w. unfold try_except_KeyError. specialize (Hm w).
  destruct (m w) as [[a|e] w1]; simpl in *; [exact Hm|].
  destruct e; try exact Hm.
  eapply same_but_stdout_trans; [exact Hm|apply Hh].
Qed.

Lemma offline_seq_index {A} (l : list A) (i : Z) : offline (seq_index l i).
Proof.
  unfold seq_index.
  destruct ((0 <=? _) && _); [|apply offline_raise].
  destruct (nth_error _ _); [apply offline_ret|apply offline_raise].
Qed.

Lemma offline_getitem (v : pyval) (k : key) : offline (py_getitem v k).
Proof.
  destruct v, k; simpl; try apply offline_raise; try apply offline_seq_index.
  destruct (dict_lookup s items); [apply offline_ret|apply offline_raise].
Qed.

Lemma offline_iter (v : pyval) : offline (py_iter v).
Proof. destruct v; simpl; try apply offline_raise; apply offline_ret. Qed.

Lemma offline_json (r : Response) : offline (json r).
Proof. unfold json. destruct (body r); [apply offline_ret|apply offline_raise]. Qed.

Create HintDb offline.

#[local] Hint Resolve offline_ret offline_raise offline_print offline_getitem
  offline_iter offline_json : offline.

Ltac offline_steps :=
  repeat first [ apply offline_bind; [|intros ?] | apply offline_try; [|intros ?] ];
  auto with offline.

(** A computation that leaves the world as it found it. *)
Lemma unchanged_bind {A B} (m : M A) (k : A -> M B) (w : World) :
  snd (m w) = w -> (forall a, snd (k a w) = w) -> snd (bind m k w) = w.
Proof.
  unfold bind. intros Hm Hk. destruct (m w) as [[a|e] w1]; simpl in *; subst;
    [apply Hk|reflexivity].
Qed.

Lemma unchanged_seq_index {A} (l : list A) (i : Z) (w : World) :
  snd (seq_index l i w) = w.
Proof.
  unfold seq_index. destruct ((0 <=? _) && _); [|reflexivity].
  destruct (nth_error _ _); reflexivity.
Qed.

Lemma unchanged_getitem (v : pyval) (k : key) (w : World) :
  snd (py_getitem v k w) = w.
Proof.
  destruct v, k; simpl; try reflexivity; try apply unchanged_seq_index.
  destruct (dict_lookup s items); reflexivity.
Qed.

Lemma unchanged_iter (v : pyval) (w : World) : snd (py_iter v w) = w.
Proof. destruct v; reflexivity. Qed.

(** A handler that prints one line and returns [None], around a body that
    leaves the world alone: either nothing was printed, or the body raised
    [KeyError] and the one line was. *)
Lemma handler_prints_once (m : M pyval) (prefix : string) (w : World) :
  snd (m w) = w ->
  let run := try_except_KeyError m
               (fun e => print (prefix +:+ key_repr e) ;;; ret PyNone) w in
  (run = m w /\ snd run = w /\ forall k, fst (m w) <> Raise (KeyError k))
  \/ (exists k, fst (m w) = Raise (KeyError k)
                /\ run = (Ret PyNone, logged (prefix +:+ key_repr k) w)).
Proof.
  intros Hm. unfold try_except_KeyError.
  destruct (m w) as [[a|e] w1]; simpl in *; subst.
  - left. repeat split. discriminate.
  - destruct e; try (left; repeat split; discriminate).
    right. exists k. split; reflexivity.
Qed.

(** The helpers send nothing and leave cache and network alone, whatever
    the payload.  [_get_all_node_values] leaves the whole world as it was;
    [_get_root_value] and [_get_root_id] either do the same or print one
    line that names a key and return [None]. *)
Theorem helpers_print_at_most_one_line (json_payload : pyval) (w : World) :
  snd (_get_all_node_values json_payload w) = w
  /\ (snd (_get_root_value json_payload w) = w
      \/ exists k,
           _get_root_value json_payload w
             = (Ret PyNone,
                logged ("Error occurred when getting root payload value "
                          +:+ key_repr k) w))
  /\ (snd (_get_root_id json_payload w) = w
      \/ exists k,
           _get_root_id json_payload w
             = (Ret PyNone,
                logged ("Error occurred when getting root id " +:+ key_repr k) w)).
Proof.
  split; [|split].
  - unfold _get_all_node_values.
    apply unchanged_bind; [apply unchanged_getitem|]. intros v.
    apply unchanged_bind; [apply unchanged_iter|]. reflexivity.
  - unfold _get_root_value.
    match goal with
    | |- context [try_except_KeyError ?m _] =>
        destruct (handler_prints_once m
                    "Error occurred when getting root payload value " w)
          as [(_ & H & _)|(k & _ & H)]
    end.
    + apply unchanged_bind; [apply unchanged_getitem|]. intros v.
      apply unchanged_getitem.
    + left. exact H.
    + right. exists k. exact H.
  - unfold _get_root_id.
    match goal with
    | |- context [try_except_KeyError ?m _] =>
        destruct (handler_prints_once m "Error occurred when getting root id " w)
          as [(_ & H & _)|(k & _ & H)]
    end.
    + apply unchanged_bind; [apply unchanged_getitem|]. intros v.
      apply unchanged_bind; [apply unchanged_getitem|]. intros v'.
      apply unchanged_getitem.
    + left. exact H.
    + right. exists k. exact H.
Qed.

(** A payload that is not an object makes each helper raise [TypeError],
    which no handler catches; nothing is printed. *)
Theorem helpers_reject_non_object_payload (json_payload : pyval) (w : World) :
  is_object json_payload = false ->
  _get_root_value json_payload w = (Raise TypeError, w)
  /\ _get_root_id json_payload w = (Raise TypeError, w)
  /\ _get_all_node_values json_payload w = (Raise TypeError, w).
Proof.
  intros H. destruct json_payload; try discriminate; repeat split; reflexivity.
Qed.

(** [_get_all_node_values] returns the items of a [value] list as they are,
    in order, an empty list included; under a [value] that is an object it
    returns the keys; and a [value] that is null, a boolean or a number
    raises [TypeError]. *)
Theorem all_node_values_by_kind_of_value (d : list (string * pyval)) (w : World) :
  (forall l, dict_lookup "value" d = Some (PyList l) ->
     _get_all_node_values (PyDict d) w = (Ret (PyList l), w))
  /\ (forall e, dict_lookup "value" d = Some (PyDict e) ->
     _get_all_node_values (PyDict d) w
       = (Ret (PyList (List.map (fun kv => PyStr (fst kv)) e)), w))
  /\ (forall v, dict_lookup "value" d = Some v ->
     match v with
     | PyNone | PyBool _ | PyInt _ | PyFloat _ => True
     | _ => False
     end ->
     _get_all_node_values (PyDict d) w = (Raise TypeError, w))
  /\ (dict_lookup "value" d = None ->
     _get_all_node_values (PyDict d) w = (Raise (KeyError (KStr "value")), w)).
Proof.
  unfold _get_all_node_values, bind. simpl.
  split; [|split; [|split]].
  - intros l ->. reflexivity.
  - intros e ->. reflexivity.
  - intros v -> Hv. destruct v; try contradiction; reflexivity.
  - intros ->. reflexivity.
Qed.

(** ** The script *)

Lemma bind_returns {A B} (m : M A) (k : A -> M B) (w w' : World) (a : A) :
  m w = (Ret a, w') -> bind m k w = k a w'.
Proof. intros H. unfold bind. now rewrite H. Qed.

Lemma bind_raises {A B} (m : M A) (k : A -> M B) (w w' : World) (e : exn) :
  m w = (Raise e, w') -> bind m k w = (Raise e, w').
Proof. intros H. unfold bind. now rewrite H. Qed.

Lemma offline_parse_responses (r1 r2 r3 : Response) :
  offline (parse_responses r1 r2 r3).
Proof.
  unfold parse_responses, _get_root_value, _get_all_node_values. offline_steps.
Qed.

Section ScriptFacts.

Variable py_repr : pyval -> string.

(** A collection query that returns leaves the token cached for the next. *)
Lemma query_returns (w w1 : World) (tok : pyval) (r : Response)
    (rest : list Response) (filter : string) :
  get_access_token py_repr w = (Ret tok, w1) ->
  pending w1 = r :: rest ->
  is_error_status (status_code r) = false ->
  let w2 := after_query tok filter r rest w1 in
  make_api_call py_repr "GET" nodes_uri NoPayload [("$filter", filter)] w = (Ret r, w2)
  /\ get_access_token py_repr w2 = (Ret tok, w2)
  /\ pending w2 = rest.
Proof.
  intros Htok Hpend Hok w2.
  destruct (get_access_token_returned py_repr w w1 tok Htok) as (Ht & _ & Hc & _).
  split; [|split; [|reflexivity]].
  - rewrite (make_api_call_run py_repr w w1 tok r rest) by assumption.
    now rewrite Hok.
  - assert (Hc2 : cached_token w2 = tok) by exact Hc.
    rewrite <- Hc2 at 1. apply get_access_token_hit. now rewrite Hc2.
Qed.

Lemma query_raises (w w1 : World) (tok : pyval) (r : Response)
    (rest : list Response) (filter : string) :
  get_access_token py_repr w = (Ret tok, w1) ->
  pending w1 = r :: rest ->
  is_error_status (status_code r) = true ->
  make_api_call py_repr "GET" nodes_uri NoPayload [("$filter", filter)] w
    = (Raise (HTTPError r), answered (collection_query tok filter) rest w1).
Proof.
  intros Htok Hpend Herr.
  rewrite (make_api_call_run py_repr w w1 tok r rest) by assumption.
  now rewrite Herr.
Qed.

(** With three responses that are not errors, [main] is the three queries
    followed by the parsing of what they returned. *)
Lemma main_after_queries (w w1 : World) (tok : pyval) (r1 r2 r3 : Response)
    (rest : list Response) :
  get_access_token py_repr w = (Ret tok, w1) ->
  pending w1 = r1 :: r2 :: r3 :: rest ->
  is_error_status (status_code r1) = false ->
  is_error_status (status_code r2) = false ->
  is_error_status (status_code r3) = false ->
  main py_repr w = parse_responses r1 r2 r3 (after_queries tok r1 r2 r3 rest w1).
Proof.
  intros Htok Hpend H1 H2 H3.
  destruct (query_returns w w1 tok r1 _ "ShortCode eq 'root'" Htok Hpend H1)
    as (Hq1 & Ht1 & Hp1).
  destruct (query_returns _ _ tok r2 _ "NodeType eq 'division'" Ht1 Hp1 H2)
    as (Hq2 & Ht2 & Hp2).
  destruct (query_returns _ _ tok r3 _ "NodeType eq 'site'" Ht2 Hp2 H3)
    as (Hq3 & _ & _).
  unfold main.
  rewrite (bind_returns _ _ _ _ _ Hq1), (bind_returns _ _ _ _ _ Hq2),
    (bind_returns _ _ _ _ _ Hq3).
  reflexivity.
Qed.

(** [main] makes its three queries before it parses any response: when the
    three statuses are not errors, the three GETs have been sent, in the
    order root, divisions, sites and with the same token, whatever the
    bodies are and whether or not the parsing then raises. *)
Theorem main_queries_before_parsing (w w1 : World) (tok : pyval)
    (r1 r2 r3 : Response) (rest : list Response) :
  get_access_token py_repr w = (Ret tok, w1) ->
  pending w1 = r1 :: r2 :: r3 :: rest ->
  is_error_status (status_code r1) = false ->
  is_error_status (status_code r2) = false ->
  is_error_status (status_code r3) = false ->
  sent (snd (main py_repr w))
    = (sent w1 ++ [collection_query tok "ShortCode eq 'root'";
                   collection_query tok "NodeType eq 'division'";
                   collection_query tok "NodeType eq 'site'"])%list
  /\ pending (snd (main py_repr w)) = rest
  /\ cache (snd (main py_repr w)) = cache w1.
Proof.
  intros Htok Hpend H1 H2 H3.
  rewrite (main_after_queries w w1 tok r1 r2 r3 rest) by assumption.
  destruct (offline_parse_responses r1 r2 r3 (after_queries tok r1 r2 r3 rest w1))
    as (_ & Hc & Hp & Hs).
  rewrite Hs, Hp, Hc. simpl. rewrite <- !app_assoc. repeat split.
Qed.

(** [main] stops at the first query whose status is an error: it raises
    the [HTTPError] of that response, and the queries after it are not
    sent. *)
Theorem main_stops_at_first_http_error (w w1 : World) (tok : pyval) :
  get_access_token py_repr w = (Ret tok, w1) ->
  (forall r1 rest,
     pending w1 = r1 :: rest ->
     is_error_status (status_code r1) = true ->
     main py_repr w
       = (Raise (HTTPError r1),
          answered (collection_query tok "ShortCode eq 'root'") rest w1))
  /\ (forall r1 r2 rest,
     pending w1 = r1 :: r2 :: rest ->
     is_error_status (status_code r1) = false ->
     is_error_status (status_code r2) = true ->
     main py_repr w
       = (Raise (HTTPError r2),
          answered (collection_query tok "NodeType eq 'division'") rest
            (after_query tok "ShortCode eq 'root'" r1 (r2 :: rest) w1)))
  /\ (forall r1 r2 r3 rest,
     pending w1 = r1 :: r2 :: r3 :: rest ->
     is_error_status (status_code r1) = false ->
     is_error_status (status_code r2) = false ->
     is_error_status (status_code r3) = true ->
     main py_repr w
       = (Raise (HTTPError r3),
          answered (collection_query tok "NodeType eq 'site'") rest
            (after_query tok "NodeType eq 'division'" r2 (r3 :: rest)
               (after_query tok "ShortCode eq 'root'" r1 (r2 :: r3 :: rest) w1)))).
Proof.
  intros Htok. split; [|split].
  - intros r1 rest Hpend H1. unfold main.
    apply bind_raises. now apply query_raises.
  - intros r1 r2 rest Hpend H1 H2.
    destruct (query_returns w w1 tok r1 _ "ShortCode eq 'root'" Htok Hpend H1)
      as (Hq1 & Ht1 & Hp1).
    unfold main. rewrite (bind_returns _ _ _ _ _ Hq1).
    apply bind_raises. now apply (query_raises _ _ tok r2 rest).
  - intros r1 r2 r3 rest Hpend H1 H2 H3.
    destruct (query_returns w w1 tok r1 _ "ShortCode eq 'root'" Htok Hpend H1)
      as (Hq1 & Ht1 & Hp1).
    destruct (query_returns _ _ tok r2 _ "NodeType eq 'division'" Ht1 Hp1 H2)
      as (Hq2 & Ht2 & Hp2).
    unfold main.
    rewrite (bind_returns _ _ _ _ _ Hq1), (bind_returns _ _ _ _ _ Hq2).
    apply bind_raises. now apply (query_raises _ _ tok r3 rest).
Qed.

(** When the three bodies are envelopes whose [value] is a list, [main]
    returns if the root list has an element and raises [IndexError] if it
    is empty; the divisions and sites lists may be empty.  Either way the
    three queries and their six printed lines are behind it. *)
Theorem main_on_list_envelopes (w w1 : World) (tok : pyval)
    (r1 r2 r3 : Response) (rest : list Response)
    (d1 d2 d3 : list (string * pyval)) (l1 l2 l3 : list pyval) :
  get_access_token py_repr w = (Ret tok, w1) ->
  pending w1 = r1 :: r2 :: r3 :: rest ->
  is_error_status (status_code r1) = false ->
  is_error_status (status_code r2) = false ->
  is_error_status (status_code r3) = false ->
  body r1 = Some (PyDict d1) -> dict_lookup "value" d1 = Some (PyList l1) ->
  body r2 = Some (PyDict d2) -> dict_lookup "value" d2 = Some (PyList l2) ->
  body r3 = Some (PyDict d3) -> dict_lookup "value" d3 = Some (PyList l3) ->
  main py_repr w
    = (match l1 with [] => Raise IndexError | _ :: _ => Ret tt end,
       after_queries tok r1 r2 r3 rest w1).
Proof.
  intros Htok Hpend H1 H2 H3 Hb1 Hv1 Hb2 Hv2 Hb3 Hv3.
  rewrite (main_after_queries w w1 tok r1 r2 r3 rest) by assumption.
  unfold parse_responses, json, _get_root_value, _get_all_node_values,
    try_except_KeyError, bind.
  rewrite Hb1, Hb2, Hb3. simpl. rewrite Hv1, Hv2, Hv3. simpl.
  destruct l1; reflexivity.
Qed.

(** An envelope without [value] is treated differently by position: as the
    root's it costs one printed line and [main] goes on, as the divisions'
    it makes [main] raise [KeyError]. *)
Theorem main_on_missing_value (w w1 : World) (tok : pyval)
    (r1 r2 r3 : Response) (rest : list Response)
    (d1 d2 d3 : list (string * pyval)) (l3 : list pyval) :
  get_access_token py_repr w = (Ret tok, w1) ->
  pending w1 = r1 :: r2 :: r3 :: rest ->
  is_error_status (status_code r1) = false ->
  is_error_status (status_code r2) = false ->
  is_error_status (status_code r3) = false ->
  body r1 = Some (PyDict d1) -> dict_lookup "value" d1 = None ->
  body r2 = Some (PyDict d2) ->
  body r3 = Some (PyDict d3) -> dict_lookup "value" d3 = Some (PyList l3) ->
  let w4 := logged "Error occurred when getting root payload value 'value'"
              (after_queries tok r1 r2 r3 rest w1) in
  (forall l2, dict_lookup "value" d2 = Some (PyList l2) ->
     main py_repr w = (Ret tt, w4))
  /\ (dict_lookup "value" d2 = None ->
     main py_repr w = (Raise (KeyError (KStr "value")), w4)).
Proof.
  intros Htok Hpend H1 H2 H3 Hb1 Hv1 Hb2 Hb3 Hv3 w4.
  rewrite (main_after_queries w w1 tok r1 r2 r3 rest) by assumption.
  unfold parse_responses, json, _get_root_value, _get_all_node_values,
    try_except_KeyError, bind.
  rewrite Hb1, Hb2, Hb3. simpl. rewrite Hv1. simpl.
  split.
  - intros l2 Hv2. rewrite Hv2. simpl. rewrite Hv3. reflexivity.
  - intros Hv2. rewrite Hv2. reflexivity.
Qed.

End ScriptFacts.

(** ** The further properties on sample runs *)

Lemma returned_token_is_cached_witness :
  let w := sample_world ∅ [token_response] in
  let w1 := snd (get_access_token sample_repr w) in
  get_access_token sample_repr w = (Ret (PyStr "Bearer abc"), w1)
  /\ truthy (PyStr "Bearer abc") = true
  /\ PyStr "Bearer abc" <> PyNone
  /\ cached_token w1 = PyStr "Bearer abc"
  /\ get_access_token sample_repr w1 = (Ret (PyStr "Bearer abc"), w1).
Proof.
  intros w w1.
  assert (Hrun : get_access_token sample_repr w = (Ret (PyStr "Bearer abc"), w1))
    by by_run.
  split; [exact Hrun|].
  exact (returned_token_is_cached sample_repr w w1 (PyStr "Bearer abc") Hrun).
Defined.

Lemma get_access_token_footprint_witness :
  let w := sample_world ∅ [token_response; envelope []] in
  let w1 := snd (get_access_token sample_repr w) in
  get_access_token sample_repr w = (Ret (PyStr "Bearer abc"), w1)
  /\ stdout w1 = stdout w
  /\ settings w1 = settings w
  /\ (forall k, k <> "access_token" -> cache w1 !! k = cache w !! k)
  /\ ((sent w1 = sent w /\ pending w1 = pending w)
      \/ (sent w1 = (sent w ++ [token_request w])%list
          /\ pending w1 = List.tl (pending w))).
Proof.
  intros w w1.
  assert (Hrun : get_access_token sample_repr w = (Ret (PyStr "Bearer abc"), w1))
    by by_run.
  split; [exact Hrun|].
  exact (get_access_token_footprint sample_repr w w1 _ Hrun).
Defined.

Lemma non_object_token_body_raises_witness :
  let r := mkResponse 200 (Some (PyList [PyStr "Bearer"; PyStr "abc"])) in
  let r' := mkResponse 200 None in
  let w := sample_world ∅ [r] in
  let w' := sample_world ∅ [r'] in
  get_access_token sample_repr w
    = (Raise AttributeError, set_network [] [token_request w] w)
  /\ get_access_token sample_repr w'
    = (Raise JSONDecodeError, set_network [] [token_request w'] w').
Proof.
  intros r r' w w'.
  assert (Hmiss : truthy (cached_token w) = false) by by_run.
  assert (Hmiss' : truthy (cached_token w') = false) by by_run.
  split.
  - exact (proj1 (proj2 (non_object_token_body_raises sample_repr w r []
                           Hmiss eq_refl eq_refl))
             (PyList [PyStr "Bearer"; PyStr "abc"]) eq_refl eq_refl).
  - exact (proj1 (non_object_token_body_raises sample_repr w' r' []
                    Hmiss' eq_refl eq_refl) eq_refl).
Defined.

Lemma authentication_failure_stops_dispatch_witness :
  let r := mkResponse 401 None in
  let w := sample_world ∅ [r; envelope []] in
  let w1 := snd (get_access_token sample_repr w) in
  get_access_token sample_repr w = (Raise (HTTPError r), w1)
  /\ (forall method uri data uri_params,
        make_api_call sample_repr method uri data uri_params w
          = (Raise (HTTPError r), w1))
  /\ (forall op, run_op sample_repr op w = (Raise (HTTPError r), w1))
  /\ stdout w1 = stdout w
  /\ cache w1 = cache w
  /\ (sent w1 = sent w \/ sent w1 = (sent w ++ [token_request w])%list).
Proof.
  intros r w w1.
  assert (Hrun : get_access_token sample_repr w = (Raise (HTTPError r), w1))
    by by_run.
  split; [exact Hrun|].
  exact (authentication_failure_stops_dispatch sample_repr w w1 _ Hrun).
Defined.

Lemma dispatch_footprint_witness :
  let w := sample_world ∅ [token_response; envelope []] in
  let run := make_api_call sample_repr "GET" nodes_uri NoPayload [] w in
  fst run = Ret (envelope [])
  /\ (exists new, sent (snd run) = (sent w ++ new)%list
                  /\ (List.length new <= 2)%nat
                  /\ (List.length new = 2%nat ->
                      List.hd_error new = Some (token_request w)))
  /\ (stdout (snd run) = (stdout w ++ diagnostics (envelope []))%list
      /\ is_error_status (status_code (envelope [])) = false)
  /\ (forall k, k <> "access_token" -> cache (snd run) !! k = cache w !! k).
Proof.
  intros w run.
  assert (Hrun : make_api_call sample_repr "GET" nodes_uri NoPayload [] w
                 = (Ret (envelope []), snd run)) by by_run.
  split; [by_run|].
  exact (dispatch_footprint sample_repr w (snd run) (Ret (envelope []))
           "GET" nodes_uri NoPayload [] Hrun).
Defined.

Lemma authorization_header_is_cached_token_witness :
  let w := sample_world ∅ [token_response; envelope []] in
  let w1 := snd (get_access_token sample_repr w) in
  let run := make_api_call sample_repr "GET" nodes_uri NoPayload [] w in
  exists rq,
    List.last (sent (snd run)) rq = rq
    /\ sent (snd run) = (sent w1 ++ [rq])%list
    /\ dict_lookup "Authorization" (req_headers rq) = Some (cached_token (snd run))
    /\ dict_lookup "Content-Type" (req_headers rq) = Some (PyStr "application/json")
    /\ dict_lookup "accept" (req_headers rq) = Some (PyStr "application/json").
Proof.
  intros w w1 run.
  apply (authorization_header_is_cached_token sample_repr w (snd run) (fst run)
           (PyStr "Bearer abc") w1 (envelope []) [] "GET" nodes_uri NoPayload []);
    by_run.
Defined.

Lemma operations_on_success_witness :
  let w := sample_world warm_cache [envelope []] in
  exists rq,
    run_op sample_repr (Archive "40c46fec-206e-426b-8c6c-199925c44441") w
      = (Ret None,
         set_stdout (stdout w ++ diagnostics (envelope [])) (answered rq [] w))
    /\ dict_lookup "Authorization" (req_headers rq) = Some (PyStr "Bearer abc").
Proof.
  intros w.
  apply (operations_on_success sample_repr
           (Archive "40c46fec-206e-426b-8c6c-199925c44441") w w
           (PyStr "Bearer abc") (envelope []) []); by_run.
Defined.

Lemma collection_queries_differ_in_filter_witness :
  let w := sample_world warm_cache [envelope []] in
  let tok := PyStr "Bearer abc" in
  sent (snd (get_root_companyunit_node sample_repr w))
    = [collection_query tok "ShortCode eq 'root'"]
  /\ sent (snd (get_divisions_company_unit_nodes sample_repr w))
    = [collection_query tok "NodeType eq 'division'"]
  /\ sent (snd (get_sites_company_unit_nodes sample_repr w))
    = [collection_query tok "NodeType eq 'site'"]
  /\ sent (snd (get_company_unit_nodes sample_repr w))
    = [collection_query tok "ShortCode ne 'root'"]
  /\ forall filter, req_url (collection_query tok filter) = nodes_url
                    /\ req_data (collection_query tok filter) = NoPayload.
Proof.
  intros w tok.
  assert (Htok : get_access_token sample_repr w = (Ret tok, w)) by by_run.
  exact (collection_queries_differ_in_filter sample_repr w w tok (envelope []) []
           Htok eq_refl).
Defined.

Lemma node_requests_address_the_node_witness :
  let nodeId := "caa8aae2-ab54-4f0d-a580-28e1ce49cc60" in
  let w := sample_world warm_cache [envelope []] in
  clean_segment nodeId = true
  /\ List.map req_url (sent (snd (get_company_unit_node sample_repr nodeId w)))
     = [nodes_url +:+ "/" +:+ nodeId]
  /\ List.map req_method (sent (snd (archive_company_unit_node sample_repr nodeId w)))
     = ["PATCH"]
  /\ List.map req_url (sent (snd (unarchive_company_unit_node sample_repr nodeId w)))
     = [nodes_url +:+ "/" +:+ nodeId].
Proof.
  intros nodeId w.
  assert (Hclean : clean_segment nodeId = true) by by_run.
  assert (Htok : get_access_token sample_repr w = (Ret (PyStr "Bearer abc"), w))
    by by_run.
  destruct (node_requests_address_the_node sample_repr nodeId w w
              (PyStr "Bearer abc") (envelope []) [] Hclean Htok eq_refl)
    as (Hget & Harch & Hun).
  split; [exact Hclean|]. rewrite Hget, Harch, Hun. repeat split.
Defined.

Lemma helpers_reject_non_object_payload_witness :
  let w := sample_world ∅ [] in
  _get_root_value (PyList [top_company]) w = (Raise TypeError, w)
  /\ _get_root_id (PyList [top_company]) w = (Raise TypeError, w)
  /\ _get_all_node_values (PyList [top_company]) w = (Raise TypeError, w).
Proof.
  intros w.
  exact (helpers_reject_non_object_payload (PyList [top_company]) w eq_refl).
Defined.

Lemma all_node_values_by_kind_of_value_witness :
  let w := sample_world ∅ [] in
  _get_all_node_values (PyDict [("value", PyList [top_company; PyNone])]) w
    = (Ret (PyList [top_company; PyNone]), w)
  /\ _get_all_node_values (PyDict [("value", PyDict [("Id", PyInt 1)])]) w
    = (Ret (PyList [PyStr "Id"]), w)
  /\ _get_all_node_values (PyDict [("value", PyNone)]) w = (Raise TypeError, w)
  /\ _get_all_node_values (PyDict [("count", PyInt 0)]) w
    = (Raise (KeyError (KStr "value")), w).
Proof.
  intros w. split; [|split; [|split]].
  - exact (proj1 (all_node_values_by_kind_of_value
                    [("value", PyList [top_company; PyNone])] w) _ eq_refl).
  - exact (proj1 (proj2 (all_node_values_by_kind_of_value
                           [("value", PyDict [("Id", PyInt 1)])] w)) _ eq_refl).
  - exact (proj1 (proj2 (proj2 (all_node_values_by_kind_of_value
                                  [("value", PyNone)] w))) PyNone eq_refl I).
  - exact (proj2 (proj2 (proj2 (all_node_values_by_kind_of_value
                                  [("count", PyInt 0)] w))) eq_refl).
Defined.

Lemma main_queries_before_parsing_witness :
  let w := sample_world ∅ [token_response; envelope [top_company];
                            mkResponse 200 None; envelope []] in
  let tok := PyStr "Bearer abc" in
  fst (main sample_repr w) = Raise JSONDecodeError
  /\ sent (snd (main sample_repr w))
     = [token_request w;
        collection_query tok "ShortCode eq 'root'";
        collection_query tok "NodeType eq 'division'";
        collection_query tok "NodeType eq 'site'"]
  /\ pending (snd (main sample_repr w)) = []
  /\ cache (snd (main sample_repr w)) = cache (snd (get_access_token sample_repr w)).
Proof.
  intros w tok.
  assert (Htok : get_access_token sample_repr w
                 = (Ret tok, snd (get_access_token sample_repr w))) by by_run.
  split; [by_run|].
  exact (main_queries_before_parsing sample_repr w _ tok (envelope [top_company])
           (mkResponse 200 None) (envelope []) [] Htok eq_refl eq_refl eq_refl
           eq_refl).
Defined.

Lemma main_stops_at_first_http_error_witness :
  let tok := PyStr "Bearer abc" in
  let denied := mkResponse 403 None in
  let w1 := sample_world warm_cache [denied; envelope []; envelope []] in
  let w2 := sample_world warm_cache [envelope [top_company]; denied; envelope []] in
  let w3 := sample_world warm_cache [envelope [top_company]; envelope []; denied] in
  main sample_repr w1
    = (Raise (HTTPError denied),
       answered (collection_query tok "ShortCode eq 'root'")
         [envelope []; envelope []] w1)
  /\ List.length (sent (snd (main sample_repr w2))) = 2%nat
  /\ fst (main sample_repr w2) = Raise (HTTPError denied)
  /\ fst (main sample_repr w3) = Raise (HTTPError denied).
Proof.
  intros tok denied w1 w2 w3.
  assert (H1 : get_access_token sample_repr w1 = (Ret tok, w1)) by by_run.
  assert (H2 : get_access_token sample_repr w2 = (Ret tok, w2)) by by_run.
  assert (H3 : get_access_token sample_repr w3 = (Ret tok, w3)) by by_run.
  split; [|split; [|split]].
  - exact (proj1 (main_stops_at_first_http_error sample_repr w1 w1 tok H1)
             denied _ eq_refl eq_refl).
  - rewrite (proj1 (proj2 (main_stops_at_first_http_error sample_repr w2 w2 tok H2))
               (envelope [top_company]) denied _ eq_refl eq_refl eq_refl).
    reflexivity.
  - rewrite (proj1 (proj2 (main_stops_at_first_http_error sample_repr w2 w2 tok H2))
               (envelope [top_company]) denied _ eq_refl eq_refl eq_refl).
    reflexivity.
  - rewrite (proj2 (proj2 (main_stops_at_first_http_error sample_repr w3 w3 tok H3))
               (envelope [top_company]) (envelope []) denied _ eq_refl eq_refl
               eq_refl eq_refl).
    reflexivity.
Defined.

Lemma main_on_list_envelopes_witness :
  let tok := PyStr "Bearer abc" in
  let full := sample_world warm_cache [envelope [top_company]; envelope []; envelope []] in
  let bare := sample_world warm_cache [envelope []; envelope []; envelope []] in
  main sample_repr full
    = (Ret tt, after_queries tok (envelope [top_company]) (envelope [])
                 (envelope []) [] full)
  /\ main sample_repr bare
    = (Raise IndexError,
       after_queries tok (envelope []) (envelope []) (envelope []) [] bare).
Proof.
  intros tok full bare.
  assert (H1 : get_access_token sample_repr full = (Ret tok, full)) by by_run.
  assert (H2 : get_access_token sample_repr bare = (Ret tok, bare)) by by_run.
  split.
  - exact (main_on_list_envelopes sample_repr full full tok _ _ _ []
             _ _ _ [top_company] [] [] H1 eq_refl eq_refl eq_refl eq_refl
             eq_refl eq_refl eq_refl eq_refl eq_refl eq_refl).
  - exact (main_on_list_envelopes sample_repr bare bare tok _ _ _ []
             _ _ _ [] [] [] H2 eq_refl eq_refl eq_refl eq_refl
             eq_refl eq_refl eq_refl eq_refl eq_refl eq_refl).
Defined.

Lemma main_on_missing_value_witness :
  let tok := PyStr "Bearer abc" in
  let empty := mkResponse 200 (Some (PyDict [])) in
  let at_root := sample_world warm_cache [empty; envelope []; envelope []] in
  let at_both := sample_world warm_cache [empty; empty; envelope []] in
  main sample_repr at_root
    = (Ret tt,
       logged "Error occurred when getting root payload value 'value'"
         (after_queries tok empty (envelope []) (envelope []) [] at_root))
  /\ main sample_repr at_both
    = (Raise (KeyError (KStr "value")),
       logged "Error occurred when getting root payload value 'value'"
         (after_queries tok empty empty (envelope []) [] at_both)).
Proof.
  intros tok empty at_root at_both.
  assert (H1 : get_access_token sample_repr at_root = (Ret tok, at_root)) by by_run.
  assert (H2 : get_access_token sample_repr at_both = (Ret tok, at_both)) by by_run.
  split.
  - exact (proj1 (main_on_missing_value sample_repr at_root at_root tok _ _ _ []
                    _ _ _ [] H1 eq_refl eq_refl eq_refl eq_refl
                    eq_refl eq_refl eq_refl eq_refl eq_refl) [] eq_refl).
  - exact (proj2 (main_on_missing_value sample_repr at_both at_both tok _ _ _ []
                    _ _ _ [] H2 eq_refl eq_refl eq_refl eq_refl
                    eq_refl eq_refl eq_refl eq_refl eq_refl) eq_refl).
Defined.
